(** * secscan: a shallow embedding of [secscan.py]

    [secscan.py] configures a Git repository so that commits are scanned for
    secrets by gitleaks through pre-commit.  The script is sequential
    orchestration of external commands and of one configuration file, so the
    embedding is an exception-and-state monad over a [World]: the working
    directory, its regular files, the clock, and the trace of every
    observable action of the script.  External commands are oracles of the
    [Host].

    Text is a [string] of bytes.  The model is exact on ASCII text; Unicode
    white space beyond ASCII (U+0085, U+00A0, ...) is not classified as
    white space. *)

From Stdlib Require Import ZArith Lia Ascii String List Bool.
From stdpp Require Import base strings gmap fin_maps.

Local Open Scope string_scope.
Local Open Scope Z_scope.

(** ** Python [str] operations used by the script *)

Module PyStr.

(** [str.isspace] on one ASCII character: TAB, LF, VT, FF, CR, the four
    separators FS, GS, RS, US, and the space. *)
Definition isspace (c : ascii) : bool :=
  let n := Ascii.N_of_ascii c in
  ((9 <=? n) && (n <=? 13) || (28 <=? n) && (n <=? 32))%N.

(** [s.lstrip()] *)
Fixpoint lstrip (s : string) : string :=
  match s with
  | String c t => if isspace c then lstrip t else s
  | EmptyString => EmptyString
  end.

(** [s.rstrip()]: a suffix made of white space only is dropped. *)
Fixpoint rstrip (s : string) : string :=
  match s with
  | String c t =>
      match rstrip t with
      | EmptyString => if isspace c then EmptyString else String c EmptyString
      | t' => String c t'
      end
  | EmptyString => EmptyString
  end.

(** [s.strip()] *)
Definition strip (s : string) : string := rstrip (lstrip s).

(** Scanner of [s.split()]: [cur] is the token being read, reversed. *)
Fixpoint split_ws_aux (cur : option string) (s : string) : list string :=
  match s with
  | EmptyString =>
      match cur with
      | Some w => [String.rev w]
      | None => []
      end
  | String c t =>
      if isspace c then
        match cur with
        | Some w => String.rev w :: split_ws_aux None t
        | None => split_ws_aux None t
        end
      else
        match cur with
        | Some w => split_ws_aux (Some (String c w)) t
        | None => split_ws_aux (Some (String c EmptyString)) t
        end
  end.

(** [s.split()]: the maximal runs of characters that are not white space. *)
Definition split_ws (s : string) : list string := split_ws_aux None s.

(** [s.split(sep)] for a one-character [sep]: fields between consecutive
    separators, empty fields kept; the result is never empty. *)
Fixpoint split_on (sep : ascii) (s : string) : list string :=
  match s with
  | EmptyString => [EmptyString]
  | String c t =>
      if Ascii.eqb c sep then EmptyString :: split_on sep t
      else
        match split_on sep t with
        | f :: fs => String c f :: fs
        | [] => [String c EmptyString]
        end
  end.

(** [s.startswith(p)] *)
Fixpoint startswith (p s : string) : bool :=
  match p, s with
  | EmptyString, _ => true
  | String a p', String b s' => Ascii.eqb a b && startswith p' s'
  | String _ _, EmptyString => false
  end.

(** [s[len(p):]] when [s] starts with [p]. *)
Fixpoint drop_prefix (p s : string) : option string :=
  match p, s with
  | EmptyString, _ => Some s
  | String a p', String b s' => if Ascii.eqb a b then drop_prefix p' s' else None
  | String _ _, EmptyString => None
  end.

(** [s.removeprefix(p)]: one occurrence of [p] is removed from the front. *)
Definition removeprefix (p s : string) : string :=
  match drop_prefix p s with
  | Some rest => rest
  | None => s
  end.

(** [needle in hay] *)
Fixpoint contains (needle hay : string) : bool :=
  startswith needle hay ||
  match hay with
  | String _ t => contains needle t
  | EmptyString => false
  end.

(** Line feed, [chr(10)]. *)
Definition nl : string := String (Ascii.ascii_of_nat 10) EmptyString.

End PyStr.

(** ** The host and the world *)

(** [subprocess.CompletedProcess]: exit status and captured standard output
    ([capture_output=True, text=True]). *)
Record CompletedProcess := { returncode : Z; stdout : string }.

(** What the script cannot decide by itself.
    - [which name] is [shutil.which(name)];
    - [spawn argv cwd files] is the run of an external command: [None] when
      the executable cannot be started, otherwise what it returned and the
      files it left behind;
    - [realpath cwd path] is the canonical absolute form of [path] as seen
      from [cwd] ([Path(path).resolve()]);
    - [utcoffset] is the offset of the host's local time from UTC, in
      seconds. *)
Record Host := {
  which : string -> option string;
  spawn : list string -> string -> gmap string string ->
          option (CompletedProcess * gmap string string);
  realpath : string -> string -> string;
  utcoffset : Z
}.

(** Every action of the script that the outside can observe. *)
Inductive event :=
| Which (name : string)
| Run (argv : list string)
| Exists (path : string)
| ReadText (path : string)
| Move (src dst : string)
| WriteText (path data : string)
| Print (line : string).

(** The mutable part: working directory, regular files by path, POSIX time
    in seconds, and the trace so far (oldest first). *)
Record World := {
  cwd : string;
  fs : gmap string string;
  clock : Z;
  events : list event
}.

Definition log (e : event) (w : World) : World :=
  {| cwd := cwd w; fs := fs w; clock := clock w; events := events w ++ [e] |}.

Definition set_fs (files : gmap string string) (w : World) : World :=
  {| cwd := cwd w; fs := files; clock := clock w; events := events w |}.

(** ** Exceptions, exit, and the monad of the script *)

Inductive exn :=
| CalledProcessError (argv : list string) (status : Z)
| FileNotFoundError (what : string)
| IndexError.

Inductive result (A : Type) :=
| Ret (a : A)
| Raise (e : exn)
| SysExit (code : Z).
Arguments Ret {A} a.
Arguments Raise {A} e.
Arguments SysExit {A} code.

Definition Py (A : Type) : Type := World -> result A * World.

Definition ret {A} (a : A) : Py A := fun w => (Ret a, w).

Definition raise {A} (e : exn) : Py A := fun w => (Raise e, w).

Definition bind {A B} (m : Py A) (k : A -> Py B) : Py B :=
  fun w =>
    match m w with
    | (Ret a, w') => k a w'
    | (Raise e, w') => (Raise e, w')
    | (SysExit c, w') => (SysExit c, w')
    end.

Notation "'do' x <- m ; k" := (bind m (fun x => k))
  (at level 10, x name, m at level 100, k at level 200).
Notation "'do' ' pat <- m ; k" := (bind m (fun x => match x with pat => k end))
  (at level 10, pat pattern, m at level 100, k at level 200).
Notation "m ;; k" := (bind m (fun _ => k))
  (at level 100, k at level 200, right associativity).

(** [try: body except subprocess.CalledProcessError: handler] *)
Definition try_except_CalledProcessError {A} (body handler : Py A) : Py A :=
  fun w =>
    match body w with
    | (Raise (CalledProcessError _ _), w') => handler w'
    | other => other
    end.

(** [if c: body] with nothing after [else]. *)
Definition when (c : bool) (body : Py unit) : Py unit :=
  if c then body else ret tt.

(** [sys.exit(code)] *)
Definition sys_exit {A} (code : Z) : Py A := fun w => (SysExit code, w).

(** [l[i]] *)
Definition index {A} (l : list A) (i : nat) : Py A :=
  match nth_error l i with
  | Some x => ret x
  | None => raise IndexError
  end.

(** [print(line)] *)
Definition print (line : string) : Py unit :=
  fun w => (Ret tt, log (Print line) w).

(** ** Calendar time: [datetime.now()] and [strftime] *)

(** A naive [datetime], to the second. *)
Record datetime := {
  year : Z; month : Z; day : Z;
  hour : Z; minute : Z; second : Z
}.

(** Proleptic Gregorian date of the day number [z] counted from
    1970-01-01. *)
Definition civil_from_days (z : Z) : Z * Z * Z :=
  let z := z + 719468 in
  let era := z / 146097 in
  let doe := z - era * 146097 in
  let yoe := (doe - doe / 1460 + doe / 36524 - doe / 146096) / 365 in
  let doy := doe - (365 * yoe + yoe / 4 - yoe / 100) in
  let mp := (5 * doy + 2) / 153 in
  let d := doy - (153 * mp + 2) / 5 + 1 in
  let m := if mp <? 10 then mp + 3 else mp - 9 in
  let y := yoe + era * 400 in
  (if m <=? 2 then y + 1 else y, m, d).

(** The wall clock that is [offset] seconds ahead of UTC, at POSIX time
    [t]. *)
Definition fromtimestamp (offset t : Z) : datetime :=
  let local := t + offset in
  let '(y, m, d) := civil_from_days (local / 86400) in
  let s := local mod 86400 in
  {| year := y; month := m; day := d;
     hour := s / 3600; minute := (s mod 3600) / 60; second := s mod 60 |}.

(** One decimal digit. *)
Definition digit (n : Z) : string :=
  String (Ascii.ascii_of_N (48 + Z.to_N (n mod 10))) EmptyString.

(** [%m], [%d], [%H], [%M], [%S]: two digits, zero padded. *)
Definition dec2 (n : Z) : string := digit (n / 10) +:+ digit n.

(** [%Y] for the years 1000 to 9999: four digits. *)
Definition dec4 (n : Z) : string := dec2 (n / 100) +:+ dec2 n.

(** [dt.strftime("%Y%m%dT%H%M%SZ")]; the [T] and the [Z] are literal
    characters of the format. *)
Definition strftime_compact (dt : datetime) : string :=
  dec4 (year dt) +:+ dec2 (month dt) +:+ dec2 (day dt) +:+ "T" +:+
  dec2 (hour dt) +:+ dec2 (minute dt) +:+ dec2 (second dt) +:+ "Z".

(** The UTC reading of the same clock, for comparison with what the script
    stamps. *)
Definition utc_stamp (w : World) : string :=
  strftime_compact (fromtimestamp 0 (clock w)).

(** ** Paths *)

(** [base / name] for an absolute, normalised [base] and a single
    component [name]. *)
Definition joinpath (base name : string) : string :=
  if String.eqb base "/" then "/" +:+ name else base +:+ "/" +:+ name.

(** ** Primitive actions *)

Section Primitives.

Variable host : Host.

(** [shutil.which(name)] *)
Definition shutil_which (name : string) : Py (option string) :=
  fun w => (Ret (which host name), log (Which name) w).

(** [subprocess.run(argv, capture_output=True, text=True, check=True)] *)
Definition subprocess_run_check (argv : list string) : Py CompletedProcess :=
  fun w =>
    let w1 := log (Run argv) w in
    match spawn host argv (cwd w) (fs w) with
    | None => (Raise (FileNotFoundError (hd "" argv)), w1)
    | Some (proc, files) =>
        if returncode proc =? 0 then (Ret proc, set_fs files w1)
        else (Raise (CalledProcessError argv (returncode proc)), set_fs files w1)
    end.

(** [Path.cwd()] *)
Definition Path_cwd : Py string := fun w => (Ret (cwd w), w).

(** [Path(path).resolve()] *)
Definition resolve (path : string) : Py string :=
  fun w => (Ret (realpath host (cwd w) path), w).

(** [datetime.now()]: local time, without time zone. *)
Definition datetime_now : Py datetime :=
  fun w => (Ret (fromtimestamp (utcoffset host) (clock w)), w).

(** [p.exists()] *)
Definition exists_ (p : string) : Py bool :=
  fun w =>
    match fs w !! p with
    | Some _ => (Ret true, log (Exists p) w)
    | None => (Ret false, log (Exists p) w)
    end.

(** [p.read_text()] *)
Definition read_text (p : string) : Py string :=
  fun w =>
    match fs w !! p with
    | Some data => (Ret data, log (ReadText p) w)
    | None => (Raise (FileNotFoundError p), log (ReadText p) w)
    end.

(** [p.write_text(data)]; the file is created or replaced. *)
Definition write_text (p data : string) : Py unit :=
  fun w => (Ret tt, set_fs (<[p := data]> (fs w)) (log (WriteText p data) w)).

(** [shutil.move(src, dst)] between regular files: a rename, which replaces
    [dst] when it exists. *)
Definition shutil_move (src dst : string) : Py unit :=
  fun w =>
    match fs w !! src with
    | Some data =>
        (Ret tt, set_fs (<[dst := data]> (delete src (fs w))) (log (Move src dst) w))
    | None => (Raise (FileNotFoundError src), log (Move src dst) w)
    end.

End Primitives.

(** ** The script *)

(** One entry of the dictionary built by [check_commands]. *)
Record ToolStatus := { status : bool; version : string }.

(** The dictionary built by [check_commands], with its two fixed keys
    ["gitleaks"] and ["pre-commit"]. *)
Record CommandsStatus := { gitleaks : ToolStatus; pre_commit : ToolStatus }.

(** [argparse] namespace: [--setup] and [--dry-run], of which the parser
    accepts exactly one. *)
Record Args := { setup : bool; dry_run : bool }.

Definition not_installed : CommandsStatus :=
  {| gitleaks := {| status := false; version := "" |};
     pre_commit := {| status := false; version := "" |} |}.

Definition config_name : string := ".pre-commit-config.yaml".

Definition marker : string := "id: gitleaks".

Definition install_argv : list string := ["pre-commit"; "install"].

Definition toplevel_argv : list string := ["git"; "rev-parse"; "--show-toplevel"].

(** The f-string [pre_commit_config]. *)
Definition pre_commit_config (gitleaks_version : string) : string :=
  "repos:" +:+ PyStr.nl +:+
  "  - repo: https://github.com/gitleaks/gitleaks" +:+ PyStr.nl +:+
  "    rev: v" +:+ gitleaks_version +:+ PyStr.nl +:+
  "    hooks:" +:+ PyStr.nl +:+
  "      - id: gitleaks" +:+ PyStr.nl.

(** The closing report of a real run. *)
Definition setup_complete (gitleaks_version pre_commit_version : string) : string :=
  PyStr.nl +:+
  "✅ Setup complete!" +:+ PyStr.nl +:+
  PyStr.nl +:+
  "- Gitleaks version: " +:+ gitleaks_version +:+ PyStr.nl +:+
  "- pre-commit version: " +:+ pre_commit_version +:+ PyStr.nl +:+
  "- Config file: .pre-commit-config.yaml" +:+ PyStr.nl +:+
  PyStr.nl +:+
  "Commits in this repo will now be scanned for secrets automatically." +:+ PyStr.nl.

Section Script.

Variable host : Host.

Definition check_in_repo : Py bool :=
  do top <- try_except_CalledProcessError
              (do proc <- subprocess_run_check host ["git"; "rev-parse"; "--show-toplevel"];
               ret (Some (PyStr.strip (stdout proc))))
              (ret None);
  match top with
  | None => ret false
  | Some repo_toplevel =>
      do here <- Path_cwd;
      do a <- resolve host here;
      do b <- resolve host repo_toplevel;
      ret (String.eqb a b)
  end.

Definition check_commands : Py CommandsStatus :=
  do found <- shutil_which host "gitleaks";
  match found with
  | None => ret not_installed
  | Some _ =>
      do g <- try_except_CalledProcessError
                (do proc <- subprocess_run_check host ["gitleaks"; "version"];
                 do tok <- index (PyStr.split_ws (PyStr.strip (stdout proc))) 0;
                 ret {| status := true; version := PyStr.removeprefix "v" tok |})
                (ret {| status := false; version := "" |});
      do found' <- shutil_which host "pre-commit";
      match found' with
      | None => ret not_installed
      | Some _ =>
          do p <- try_except_CalledProcessError
                    (do proc <- subprocess_run_check host ["pre-commit"; "--version"];
                     do tok <- index (PyStr.split_on " " (PyStr.strip (stdout proc))) 1;
                     ret {| status := true; version := tok |})
                    (ret {| status := false; version := "" |});
          ret {| gitleaks := g; pre_commit := p |}
      end
  end.

(** The path [p] of the configuration file. *)
Definition config_path (w : World) : string := joinpath (cwd w) config_name.

(** The path [backup_path] computed at the start of [config_secscan]. *)
Definition backup_path_of (w : World) : string :=
  joinpath (cwd w)
    (".pre-commit-config.yaml-" +:+
     strftime_compact (fromtimestamp (utcoffset host) (clock w))).

(** [pre_commit_version] is the module-level variable set by the main
    block before the call. *)
Definition config_secscan (gitleaks_version pre_commit_version : string)
    (dry : bool) : Py unit :=
  let pre_commit_config := pre_commit_config gitleaks_version in
  do here <- Path_cwd;
  let p := joinpath here config_name in
  do now <- datetime_now host;
  let timestamp := strftime_compact now in
  let backup_path := joinpath here (".pre-commit-config.yaml-" +:+ timestamp) in
  if dry then
    (do present <- exists_ p;
     if present then
       do config_content <- read_text p;
       if PyStr.contains marker config_content then
         print "[dry-run] gitleaks already configured." ;;
         print "[dry-run] Would run: pre-commit install"
       else
         print ("[dry-run] Would move existing " +:+ p +:+ " -> " +:+ backup_path) ;;
         print ("[dry-run] Would write new " +:+ p +:+ " with content:" +:+
                PyStr.nl +:+ pre_commit_config)
     else
       print ("[dry-run] Would write new " +:+ p +:+ " with content:" +:+
              PyStr.nl +:+ pre_commit_config)) ;;
    print "[dry-run] Would run: pre-commit install"
  else
    let write_and_install :=
      write_text p pre_commit_config ;;
      print ("Wrote " +:+ p) ;;
      subprocess_run_check host install_argv ;;
      print (setup_complete gitleaks_version pre_commit_version) in
    do present <- exists_ p;
    if present then
      do config_content <- read_text p;
      if PyStr.contains marker config_content then
        print ("Repository already configured with gitleaks rev " +:+
               gitleaks_version +:+ "; only installing hooks.") ;;
        subprocess_run_check host install_argv ;;
        print "pre-commit hooks installed"
      else
        shutil_move p backup_path ;;
        print ("Existing config moved to " +:+ backup_path) ;;
        write_and_install
    else write_and_install.

Definition main (args : Args) : Py unit :=
  do in_repo <- check_in_repo;
  when (negb in_repo)
    (print "❌ Not at a Git repository top-level. Run this script from the repository root." ;;
     sys_exit 1) ;;
  do commands_status <- check_commands;
  let gitleaks_status := status (gitleaks commands_status) in
  let gitleaks_version := version (gitleaks commands_status) in
  let pre_commit_status := status (pre_commit commands_status) in
  let pre_commit_version := version (pre_commit commands_status) in
  let status := gitleaks_status && pre_commit_status in
  when (negb status)
    (print ("⚠️ Missing required tools or versions could not be determined." +:+ PyStr.nl) ;;
     print ("➡️ Install gitleaks via: brew install gitleaks" +:+ PyStr.nl +:+
            "    More info: https://github.com/gitleaks/gitleaks") ;;
     print ("➡️ Install pre-commit via: brew install pre-commit" +:+ PyStr.nl +:+
            "    More info: https://pre-commit.com/") ;;
     sys_exit 1) ;;
  when (dry_run args)
    (config_secscan gitleaks_version pre_commit_version true ;;
     sys_exit 0) ;;
  when (setup args)
    (config_secscan gitleaks_version pre_commit_version false ;;
     sys_exit 0).

(** Exit status of a run that has reached the main block: the argument of
    [sys.exit], 1 after an uncaught exception, 0 when the main block runs to
    its end.  The parser of lines 14-21 runs before the main block and is not
    part of the model: it ends the process by itself with status 2 on a
    usage error and with status 0 on [--help], and otherwise hands over a
    namespace in which exactly one of the two flags is set. *)
Definition exit_status (args : Args) (w : World) : Z * World :=
  match main args w with
  | (Ret _, w') => (0, w')
  | (SysExit code, w') => (code, w')
  | (Raise _, w') => (1, w')
  end.

End Script.

(** ** Concrete hosts and worlds *)

Module Scenario.

(** A host described by which tools are on the search path, the status of
    [pre-commit install], and the time zone.  Git reports [/repo] as the
    top level; the install command leaves a hook script behind. *)
Definition host_of (has_gitleaks has_pre_commit : bool) (install_status offset : Z) : Host :=
  {| which := fun name =>
       if String.eqb name "gitleaks" then
         if has_gitleaks then Some "/usr/bin/gitleaks" else None
       else if String.eqb name "pre-commit" then
         if has_pre_commit then Some "/usr/bin/pre-commit" else None
       else None;
     spawn := fun argv _ files =>
       match argv with
       | ["git"; "rev-parse"; "--show-toplevel"] =>
           Some ({| returncode := 0; stdout := "/repo" +:+ PyStr.nl |}, files)
       | ["gitleaks"; "version"] =>
           Some ({| returncode := 0; stdout := "v1.2.3" +:+ PyStr.nl |}, files)
       | ["pre-commit"; "--version"] =>
           Some ({| returncode := 0; stdout := "pre-commit 3.0.0" +:+ PyStr.nl |}, files)
       | ["pre-commit"; "install"] =>
           Some ({| returncode := install_status;
                    stdout := "pre-commit installed at .git/hooks/pre-commit" +:+ PyStr.nl |},
                 if install_status =? 0
                 then <["/repo/.git/hooks/pre-commit" := "#!/usr/bin/env bash"]> files
                 else files)
       | _ => None
       end;
     realpath := fun here path =>
       if PyStr.startswith "/" path then path else joinpath here path;
     utcoffset := offset |}.

(** Both tools installed, local time is UTC+05:30. *)
Definition host_ok : Host := host_of true true 0 19800.


(** Only gitleaks is installed. *)
Definition host_no_pre_commit : Host := host_of true false 0 19800.

(** Only pre-commit is installed. *)
Definition host_no_gitleaks : Host := host_of false true 0 19800.

(** 2025-09-09 00:00:00 UTC. *)
Definition t0 : Z := 1757376000.

Definition world_of (here : string) (files : gmap string string) : World :=
  {| cwd := here; fs := files; clock := t0; events := [] |}.

(** At the top level, no configuration file. *)
Definition fresh : World := world_of "/repo" ∅.

(** At the top level, configured by an earlier run. *)
Definition configured : World :=
  world_of "/repo" {[ "/repo/.pre-commit-config.yaml" := pre_commit_config "1.2.3" ]}.

Definition other_config : string :=
  "repos:" +:+ PyStr.nl +:+ "  - repo: local" +:+ PyStr.nl.

(** At the top level, a configuration file for other hooks. *)
Definition foreign : World :=
  world_of "/repo" {[ "/repo/.pre-commit-config.yaml" := other_config ]}.

(** In a subdirectory of the repository. *)
Definition nested : World := world_of "/repo/src" ∅.

End Scenario.

Import Scenario.

(** ** Reading traces *)

(** The script changes a file itself: a write or a rename. *)
Definition is_file_mutation (e : event) : bool :=
  match e with
  | WriteText _ _ | Move _ _ => true
  | _ => false
  end.

(** An external command is started. *)
Definition is_run (e : event) : bool :=
  match e with
  | Run _ => true
  | _ => false
  end.

(** [pre-commit install] is started. *)
Definition is_install (e : event) : bool :=
  match e with
  | Run argv => bool_decide (argv = install_argv)
  | _ => false
  end.

(** A configuration action: a file mutation or the install command. *)
Definition is_config_action (e : event) : bool :=
  is_file_mutation e || is_install e.

(** Looking and telling: existence tests, reads and printed lines. *)
Definition is_descriptive (e : event) : bool :=
  match e with
  | Exists _ | ReadText _ | Print _ => true
  | _ => false
  end.

(** [w] after the script has added [trace] and nothing else. *)
Definition extend (w : World) (trace : list event) : World :=
  {| cwd := cwd w; fs := fs w; clock := clock w; events := events w ++ trace |}.

(** The files an external command leaves when started in [here] on
    [files]; a command that cannot be started leaves them as they are. *)
Definition files_after (host : Host) (argv : list string) (here : string)
    (files : gmap string string) : gmap string string :=
  match spawn host argv here files with
  | Some (_, files') => files'
  | None => files
  end.

(** As the specification words the parse of a version: the first token of
    the output between white space, without a leading [v]. *)
Definition first_token_version (out : string) : option string :=
  match PyStr.split_ws out with
  | tok :: _ => Some (PyStr.removeprefix "v" tok)
  | [] => None
  end.

(** [sub] lies strictly below [top]. *)
Definition proper_subdirectory (sub top : string) : Prop :=
  exists rest, rest <> "" /\ sub = joinpath top rest.

(** ** More trace predicates and hosts *)

(** A rename. *)
Definition is_move (e : event) : bool :=
  match e with
  | Move _ _ => true
  | _ => false
  end.

(** A write. *)
Definition is_write (e : event) : bool :=
  match e with
  | WriteText _ _ => true
  | _ => false
  end.

(** The four actions of the tool probe, in the order of the source. *)
Definition probe_actions : list event :=
  [Which "gitleaks"; Run ["gitleaks"; "version"];
   Which "pre-commit"; Run ["pre-commit"; "--version"]].

(** The lines of the simulation, as the f-strings build them. *)
Definition would_move (p backup_path : string) : string :=
  "[dry-run] Would move existing " +:+ p +:+ " -> " +:+ backup_path.

Definition would_write (p pre_commit_config : string) : string :=
  "[dry-run] Would write new " +:+ p +:+ " with content:" +:+
  PyStr.nl +:+ pre_commit_config.

(** The result of [subprocess.run(..., check=True)] once the command has
    been tried: the exception, or nothing to report. *)
Definition install_result (host : Host) (here : string)
    (files : gmap string string) : result unit :=
  match spawn host install_argv here files with
  | None => Raise (FileNotFoundError "pre-commit")
  | Some (proc, _) =>
      if returncode proc =? 0 then Ret tt
      else Raise (CalledProcessError install_argv (returncode proc))
  end.

Module Hosts.

(** A host where both tools are on the search path and the commands answer
    as given: [git] may be missing altogether, [gitleaks version] exits
    with [gitleaks_status] after printing [gitleaks_out], and
    [pre-commit --version] prints [pre_commit_out].  [pre-commit install]
    succeeds and changes no file. *)
Definition answering (has_git : bool) (gitleaks_status : Z)
    (gitleaks_out pre_commit_out : string) : Host :=
  {| which := fun name =>
       if String.eqb name "gitleaks" then Some "/usr/bin/gitleaks"
       else if String.eqb name "pre-commit" then Some "/usr/bin/pre-commit"
       else None;
     spawn := fun argv _ files =>
       match argv with
       | ["git"; "rev-parse"; "--show-toplevel"] =>
           if has_git
           then Some ({| returncode := 0; stdout := "/repo" +:+ PyStr.nl |}, files)
           else None
       | ["gitleaks"; "version"] =>
           Some ({| returncode := gitleaks_status; stdout := gitleaks_out |}, files)
       | ["pre-commit"; "--version"] =>
           Some ({| returncode := 0; stdout := pre_commit_out |}, files)
       | ["pre-commit"; "install"] =>
           Some ({| returncode := 0; stdout := "" |}, files)
       | _ => None
       end;
     realpath := fun here path =>
       if PyStr.startswith "/" path then path else joinpath here path;
     utcoffset := 0 |}.

(** [git] is not installed. *)
Definition no_git : Host := answering false 0 "v1.2.3" "pre-commit 3.0.0".

(** [gitleaks version] prints an empty line. *)
Definition silent_gitleaks : Host := answering true 0 PyStr.nl "pre-commit 3.0.0".

(** [gitleaks version] fails. *)
Definition broken_gitleaks : Host := answering true 2 "" "pre-commit 3.0.0".

(** [pre-commit --version] prints the bare number. *)
Definition bare_pre_commit : Host := answering true 0 "v1.2.3" ("3.0.0" +:+ PyStr.nl).

(** Everything answers as expected. *)
Definition plain : Host :=
  answering true 0 ("v1.2.3" +:+ PyStr.nl) ("pre-commit 3.0.0" +:+ PyStr.nl).

End Hosts.

(** Every character of [s] passes [test]. *)
Fixpoint all_chars (test : ascii -> bool) (s : string) : bool :=
  match s with
  | EmptyString => true
  | String c t => test c && all_chars test t
  end.

(** No character of [s] is white space. *)
Definition no_white_space (s : string) : bool :=
  all_chars (fun c => negb (PyStr.isspace c)) s.

(** At the top level, with a configuration file where the hook is only
    mentioned in a comment. *)
Definition commented : World :=
  Scenario.world_of "/repo"
    {[ "/repo/.pre-commit-config.yaml" :=
         "# no " +:+ "id: gitleaks" +:+ " here" +:+ PyStr.nl ]}.

(** The directory that the output of the top-level query names: the line
    that git printed, without its terminator. *)
Fixpoint reported_toplevel (out : string) : string :=
  match out with
  | EmptyString => EmptyString
  | String c EmptyString => if Ascii.eqb c "010" then EmptyString else out
  | String c t => String c (reported_toplevel t)
  end.

(** A host on which every working directory is the top level of a
    repository: git answers with the working directory itself.  Paths are
    canonical as they stand. *)
Definition host_top_everywhere : Host :=
  {| which := fun name =>
       if String.eqb name "gitleaks" then Some "/usr/bin/gitleaks"
       else if String.eqb name "pre-commit" then Some "/usr/bin/pre-commit"
       else None;
     spawn := fun argv here files =>
       match argv with
       | ["git"; "rev-parse"; "--show-toplevel"] =>
           Some ({| returncode := 0; stdout := here +:+ PyStr.nl |}, files)
       | ["gitleaks"; "version"] =>
           Some ({| returncode := 0; stdout := "v1.2.3" +:+ PyStr.nl |}, files)
       | ["pre-commit"; "--version"] =>
           Some ({| returncode := 0; stdout := "pre-commit 3.0.0" +:+ PyStr.nl |}, files)
       | ["pre-commit"; "install"] =>
           Some ({| returncode := 0; stdout := "" |}, files)
       | _ => None
       end;
     realpath := fun here path =>
       if PyStr.startswith "/" path then path else joinpath here path;
     utcoffset := 0 |}.

(** At the top level of a repository whose directory name ends with a
    space. *)
Definition spaced_root : World := Scenario.world_of "/repo " ∅.

(** At the top level of a repository with an ordinary name. *)
Definition plain_root : World := Scenario.world_of "/srv/repo" ∅.

(** * Properties *)

(** ** The monad and the primitives *)

Lemma extend_nil w : extend w [] = w.
Proof. destruct w; unfold extend; simpl. by rewrite app_nil_r. Qed.

Lemma log_extend e w trace : log e (extend w trace) = extend w (trace ++ [e]).
Proof. unfold log, extend; simpl. by rewrite app_assoc. Qed.

Lemma log_as_extend e w : log e w = extend w [e].
Proof. reflexivity. Qed.

Lemma set_fs_log files e w : set_fs files (log e w) = log e (set_fs files w).
Proof. reflexivity. Qed.

(** ** Tool probe *)

Section ToolProbe.

Variable host : Host.

(** C7.  When gitleaks is not on the search path, [check_commands] answers
    at once that neither tool is installed, with empty versions: the only
    thing it has done is the one lookup of gitleaks, so pre-commit was not
    looked at. *)
Theorem check_commands_gitleaks_absent (w : World) :
  which host "gitleaks" = None ->
  check_commands host w =
    (Ret {| gitleaks := {| status := false; version := "" |};
            pre_commit := {| status := false; version := "" |} |},
     log (Which "gitleaks") w).
Proof.
  intros Habsent.
  unfold check_commands, bind, shutil_which. by rewrite Habsent.
Qed.

(** The gitleaks stage of [check_commands] once the executable was found
    and its version command exited with status 0 and printed a token. *)
Lemma gitleaks_stage (w : World) proc files tok :
  spawn host ["gitleaks"; "version"] (cwd w) (fs w) = Some (proc, files) ->
  returncode proc = 0 ->
  nth_error (PyStr.split_ws (PyStr.strip (stdout proc))) 0 = Some tok ->
  try_except_CalledProcessError
    (do proc <- subprocess_run_check host ["gitleaks"; "version"];
     do tok <- index (PyStr.split_ws (PyStr.strip (stdout proc))) 0;
     ret {| status := true; version := PyStr.removeprefix "v" tok |})
    (ret {| status := false; version := "" |}) w
  = (Ret {| status := true; version := PyStr.removeprefix "v" tok |},
     set_fs files (log (Run ["gitleaks"; "version"]) w)).
Proof.
  intros Hrun Hrc Htok.
  unfold try_except_CalledProcessError, bind, subprocess_run_check, index.
  rewrite Hrun, Hrc. cbv beta iota zeta. change (0 =? 0) with true.
  cbv beta iota. by rewrite Htok.
Qed.

(** C10.  gitleaks is found, its version command succeeds and yields a
    version, but pre-commit is not on the search path: [check_commands]
    reports gitleaks too as not installed, with an empty version.  The
    version it had read is dropped. *)
Theorem check_commands_pre_commit_absent (w : World) proc files tok :
  which host "gitleaks" <> None ->
  spawn host ["gitleaks"; "version"] (cwd w) (fs w) = Some (proc, files) ->
  returncode proc = 0 ->
  nth_error (PyStr.split_ws (PyStr.strip (stdout proc))) 0 = Some tok ->
  which host "pre-commit" = None ->
  exists w',
    check_commands host w =
      (Ret {| gitleaks := {| status := false; version := "" |};
              pre_commit := {| status := false; version := "" |} |}, w') /\
    events w' =
      (events w ++ [Which "gitleaks"; Run ["gitleaks"; "version"]; Which "pre-commit"])%list.
Proof.
  intros Hfound Hrun Hrc Htok Habsent.
  unfold check_commands. unfold bind at 1. unfold shutil_which at 1.
  destruct (which host "gitleaks") as [path|] eqn:Hg; [|done].
  unfold bind at 1. rewrite (gitleaks_stage _ proc files tok) by done.
  unfold bind, shutil_which. rewrite Habsent.
  eexists. split; [reflexivity|].
  simpl. by rewrite <- !app_assoc.
Qed.

(** The pre-commit stage of [check_commands] once the executable was found
    and its version command exited with status 0 and printed two fields. *)
Lemma pre_commit_stage (w : World) proc files tok :
  spawn host ["pre-commit"; "--version"] (cwd w) (fs w) = Some (proc, files) ->
  returncode proc = 0 ->
  nth_error (PyStr.split_on " " (PyStr.strip (stdout proc))) 1 = Some tok ->
  try_except_CalledProcessError
    (do proc <- subprocess_run_check host ["pre-commit"; "--version"];
     do tok <- index (PyStr.split_on " " (PyStr.strip (stdout proc))) 1;
     ret {| status := true; version := tok |})
    (ret {| status := false; version := "" |}) w
  = (Ret {| status := true; version := tok |},
     set_fs files (log (Run ["pre-commit"; "--version"]) w)).
Proof.
  intros Hrun Hrc Htok.
  unfold try_except_CalledProcessError, bind, subprocess_run_check, index.
  rewrite Hrun, Hrc. cbv beta iota zeta. change (0 =? 0) with true.
  cbv beta iota. by rewrite Htok.
Qed.

(** C3, amended.  With both executables found and both version commands
    exiting with status 0, [check_commands] reports
    - for gitleaks: the first token between white space of the output,
      without one leading [v];
    - for pre-commit: the second of the fields that single spaces separate
      in the stripped output, as it is. *)
Theorem check_commands_versions (w : World) gproc gfiles gtok pproc pfiles ptok :
  which host "gitleaks" <> None ->
  spawn host ["gitleaks"; "version"] (cwd w) (fs w) = Some (gproc, gfiles) ->
  returncode gproc = 0 ->
  nth_error (PyStr.split_ws (PyStr.strip (stdout gproc))) 0 = Some gtok ->
  which host "pre-commit" <> None ->
  spawn host ["pre-commit"; "--version"] (cwd w) gfiles = Some (pproc, pfiles) ->
  returncode pproc = 0 ->
  nth_error (PyStr.split_on " " (PyStr.strip (stdout pproc))) 1 = Some ptok ->
  fst (check_commands host w) =
    Ret {| gitleaks := {| status := true; version := PyStr.removeprefix "v" gtok |};
           pre_commit := {| status := true; version := ptok |} |}.
Proof.
  intros Hg Hgrun Hgrc Hgtok Hp Hprun Hprc Hptok.
  unfold check_commands. unfold bind at 1. unfold shutil_which at 1.
  destruct (which host "gitleaks") as [gpath|]; [|done].
  unfold bind at 1. rewrite (gitleaks_stage _ gproc gfiles gtok) by done.
  unfold bind at 1. unfold shutil_which at 1.
  destruct (which host "pre-commit") as [ppath|]; [|done].
  unfold bind at 1.
  by rewrite (pre_commit_stage _ pproc pfiles ptok).
Qed.

End ToolProbe.

(** C3 as the specification states it does not hold for pre-commit: on a
    host where [pre-commit --version] prints [pre-commit 3.0.0], the
    reported version is [3.0.0], while the first token without a leading
    [v] is [pre-commit]. *)
Lemma pre_commit_version_is_not_first_token :
  exists proc cs w',
    which host_ok "pre-commit" <> None /\
    spawn host_ok ["pre-commit"; "--version"] "/repo" ∅ = Some (proc, ∅) /\
    returncode proc = 0 /\
    check_commands host_ok fresh = (Ret cs, w') /\
    version (pre_commit cs) = "3.0.0" /\
    first_token_version (stdout proc) = Some "pre-commit" /\
    Some (version (pre_commit cs)) <> first_token_version (stdout proc).
Proof.
  do 3 eexists. repeat split; try reflexivity; try done.
Qed.

Lemma check_commands_versions_witness :
  fst (check_commands host_ok fresh) =
    Ret {| gitleaks := {| status := true; version := "1.2.3" |};
           pre_commit := {| status := true; version := "3.0.0" |} |}.
Proof.
  apply (check_commands_versions host_ok fresh
           {| returncode := 0; stdout := "v1.2.3" +:+ PyStr.nl |} ∅ "v1.2.3"
           {| returncode := 0; stdout := "pre-commit 3.0.0" +:+ PyStr.nl |} ∅ "3.0.0");
    first [reflexivity | done].
Defined.

Lemma check_commands_gitleaks_absent_witness :
  check_commands host_no_gitleaks fresh =
    (Ret {| gitleaks := {| status := false; version := "" |};
            pre_commit := {| status := false; version := "" |} |},
     log (Which "gitleaks") fresh).
Proof. apply (check_commands_gitleaks_absent host_no_gitleaks fresh). reflexivity. Defined.

Lemma check_commands_pre_commit_absent_witness :
  exists w',
    check_commands host_no_pre_commit fresh =
      (Ret {| gitleaks := {| status := false; version := "" |};
              pre_commit := {| status := false; version := "" |} |}, w') /\
    events w' =
      (events fresh ++ [Which "gitleaks"; Run ["gitleaks"; "version"]; Which "pre-commit"])%list.
Proof.
  apply (check_commands_pre_commit_absent host_no_pre_commit fresh
           {| returncode := 0; stdout := "v1.2.3" +:+ PyStr.nl |} ∅ "v1.2.3");
    first [reflexivity | done].
Defined.

(** ** Strings and paths *)

Lemma length_append (a b : string) :
  String.length (a +:+ b) = (String.length a + String.length b)%nat.
Proof. induction a as [|c a IH]; simpl; [done | by rewrite IH]. Qed.

Lemma append_nonempty_neq (a b : string) : b <> "" -> a +:+ b <> a.
Proof.
  intros Hb Heq. apply (f_equal String.length) in Heq.
  rewrite length_append in Heq. destruct b; [done | simpl in Heq; lia].
Qed.

Lemma joinpath_inj (base a b : string) : joinpath base a = joinpath base b -> a = b.
Proof.
  unfold joinpath. destruct (String.eqb base "/"); intros Heq.
  - by apply (inj (String.append "/")) in Heq.
  - apply (inj (String.append base)) in Heq.
    by apply (inj (String.append "/")) in Heq.
Qed.

Lemma proper_subdirectory_neq (sub top : string) :
  proper_subdirectory sub top -> sub <> top.
Proof.
  intros (rest & Hrest & ->). unfold joinpath.
  destruct (String.eqb_spec top "/") as [->|_].
  - intros Heq. apply (append_nonempty_neq "/" rest Hrest). exact Heq.
  - apply append_nonempty_neq. done.
Qed.

Lemma startswith_append_same (a b c : string) :
  PyStr.startswith (a +:+ b) (a +:+ c) = PyStr.startswith b c.
Proof. induction a as [|x a IH]; simpl; [done | by rewrite Ascii.eqb_refl]. Qed.

Lemma contains_here (needle hay : string) :
  PyStr.startswith needle hay = true -> PyStr.contains needle hay = true.
Proof. intros H. destruct hay; simpl in *; by rewrite H. Qed.

Lemma contains_append_r (needle a b : string) :
  PyStr.contains needle b = true -> PyStr.contains needle (a +:+ b) = true.
Proof.
  intros H. induction a as [|x a IH]; simpl; [done|].
  rewrite IH. apply orb_true_r.
Qed.

(** The configuration that is written declares the hook. *)
Lemma pre_commit_config_has_marker (gitleaks_version : string) :
  PyStr.contains marker (pre_commit_config gitleaks_version) = true.
Proof. unfold pre_commit_config. do 9 apply contains_append_r. reflexivity. Qed.

(** The configuration that is written pins the revision [v] followed by
    the detected version and the end of the line. *)
Lemma pre_commit_config_has_rev (gitleaks_version : string) :
  PyStr.contains ("rev: v" +:+ gitleaks_version +:+ PyStr.nl)
    (pre_commit_config gitleaks_version) = true.
Proof.
  unfold pre_commit_config. do 4 apply contains_append_r.
  change ("    rev: v" +:+ gitleaks_version +:+ PyStr.nl +:+ ?rest)
    with ("    " +:+ ("rev: v" +:+ (gitleaks_version +:+ (PyStr.nl +:+ rest)))).
  apply contains_append_r, contains_here.
  change ("rev: v" +:+ gitleaks_version +:+ PyStr.nl)
    with ("rev: v" +:+ (gitleaks_version +:+ PyStr.nl)).
  by rewrite !startswith_append_same.
Qed.

(** ** Environment check *)

Section EnvironmentCheck.

Variable host : Host.

(** [check_in_repo] by the outcome of the query. *)
Lemma check_in_repo_unfold (w : World) :
  check_in_repo host w =
    let w1 := log (Run toplevel_argv) w in
    match spawn host toplevel_argv (cwd w) (fs w) with
    | None => (Raise (FileNotFoundError "git"), w1)
    | Some (proc, files) =>
        if returncode proc =? 0 then
          (Ret (String.eqb (realpath host (cwd w) (cwd w))
                           (realpath host (cwd w) (PyStr.strip (stdout proc)))),
           set_fs files w1)
        else (Ret false, set_fs files w1)
    end.
Proof.
  unfold check_in_repo, bind, try_except_CalledProcessError,
    subprocess_run_check, toplevel_argv.
  destruct (spawn host _ (cwd w) (fs w)) as [[proc files]|]; [|done].
  cbv zeta. by destruct (returncode proc =? 0).
Qed.

(** [check_in_repo] in terms of the stripped answer: it returns [True]
    exactly when the query for the top level exits with status 0 and the
    working directory and the stripped answer have the same canonical path.
    From a proper subdirectory of the stripped answer it returns [False],
    and so it does when the query exits with another status. *)
Theorem check_in_repo_top_level_only (w : World) :
  (fst (check_in_repo host w) = Ret true <->
   exists proc files,
     spawn host toplevel_argv (cwd w) (fs w) = Some (proc, files) /\
     returncode proc = 0 /\
     realpath host (cwd w) (cwd w) =
       realpath host (cwd w) (PyStr.strip (stdout proc))) /\
  (forall proc files,
     spawn host toplevel_argv (cwd w) (fs w) = Some (proc, files) ->
     returncode proc = 0 ->
     proper_subdirectory (realpath host (cwd w) (cwd w))
       (realpath host (cwd w) (PyStr.strip (stdout proc))) ->
     fst (check_in_repo host w) = Ret false) /\
  (forall proc files,
     spawn host toplevel_argv (cwd w) (fs w) = Some (proc, files) ->
     returncode proc <> 0 ->
     fst (check_in_repo host w) = Ret false).
Proof.
  rewrite check_in_repo_unfold. cbv zeta.
  destruct (spawn host toplevel_argv (cwd w) (fs w)) as [[proc files]|] eqn:Hrun.
  - destruct (Z.eqb_spec (returncode proc) 0) as [Hrc|Hrc]; simpl.
    + split; [|split].
      * split.
        -- intros [= Heq]. apply String.eqb_eq in Heq. by exists proc, files.
        -- intros (proc' & files' & [= <- <-] & _ & Heq).
           f_equal. by apply String.eqb_eq.
      * intros proc' files' [= <- <-] _ Hsub.
        f_equal. apply String.eqb_neq. by apply proper_subdirectory_neq.
      * intros proc' files' [= <- <-] Hne. done.
    + split; [|split].
      * split; [done|]. intros (proc' & files' & [= <- <-] & Hz & _). done.
      * intros proc' files' [= <- <-] Hz. done.
      * done.
  - simpl. split; [|split]; [|done..].
    split; [done|]. intros (? & ? & ? & _). done.
Qed.

End EnvironmentCheck.

Lemma check_in_repo_top_level_only_witness :
  fst (check_in_repo host_ok nested) = Ret false.
Proof.
  destruct (check_in_repo_top_level_only host_ok nested) as (_ & Hsub & _).
  apply (Hsub {| returncode := 0; stdout := "/repo" +:+ PyStr.nl |} ∅).
  - reflexivity.
  - reflexivity.
  - exists "src". split; [done | reflexivity].
Defined.

(** ** Configuration writer *)

(** Two worlds that differ in how the trace is bracketed. *)
Ltac same_world :=
  unfold extend, set_fs, log; cbn [cwd fs clock events];
  rewrite <- ?app_assoc; reflexivity.

Lemma trace_snoc (t l pre c : list event) :
  t = (l ++ pre)%list -> (t ++ c = l ++ pre ++ c)%list.
Proof. intros ->. symmetry. apply app_assoc. Qed.

(** Read a left-nested trace as an extension of its first segment. *)
Ltac grow_trace := first [reflexivity | apply trace_snoc; grow_trace].

(** Reduce the world projections exposed by one more step of a run. *)
Ltac step := cbv beta iota zeta; cbn [fs cwd clock events log set_fs].

Section ConfigurationWriter.

Variable host : Host.

(** C1.  In simulation mode [config_secscan] returns normally and leaves
    the world as it found it but for the trace: the files are the same map,
    and what it added to the trace is existence tests, reads and printed
    lines only (no write, no rename, no command).  This holds whether the
    configuration file is absent, present with the marker, or present
    without it. *)
Theorem dry_run_changes_nothing (gitleaks_version pre_commit_version : string) (w : World) :
  exists trace,
    config_secscan host gitleaks_version pre_commit_version true w =
      (Ret tt, extend w trace) /\
    forallb is_descriptive trace = true /\
    forallb (fun e => negb (is_file_mutation e) && negb (is_run e)) trace = true.
Proof.
  unfold config_secscan, bind, Path_cwd, datetime_now, exists_, read_text, print, ret.
  destruct (fs w !! joinpath (cwd w) config_name) as [content|] eqn:Hfile.
  - cbv beta iota. cbn [fs log]. rewrite Hfile.
    destruct (PyStr.contains marker content); eexists;
      (split; [same_world | done]).
  - eexists. split; [same_world | done].
Qed.

(** C4.  In real mode, with a configuration file that already contains
    the marker, [config_secscan] writes nothing and renames nothing; the one
    command it starts is [pre-commit install], for any detected version.
    The files afterwards are those the install command left, so a run on an
    already configured repository leaves the content of the configuration
    file as it was whenever the install command does. *)
Theorem configured_repo_only_installs
    (gitleaks_version pre_commit_version : string) (w : World) (content : string) :
  fs w !! config_path w = Some content ->
  PyStr.contains marker content = true ->
  exists r trace w',
    config_secscan host gitleaks_version pre_commit_version false w = (r, w') /\
    w' = set_fs (files_after host install_argv (cwd w) (fs w)) (extend w trace) /\
    forallb (fun e => negb (is_file_mutation e)) trace = true /\
    List.filter is_run trace = [Run install_argv] /\
    (files_after host install_argv (cwd w) (fs w) !! config_path w = Some content ->
     fs w' !! config_path w = Some content).
Proof.
  unfold config_path. intros Hfile Hmarker.
  unfold config_secscan, bind, Path_cwd, datetime_now, exists_, read_text, print,
    subprocess_run_check, files_after, ret.
  rewrite Hfile. step. rewrite Hfile, Hmarker. step.
  destruct (spawn host install_argv (cwd w) (fs w)) as [[proc files]|].
  - destruct (returncode proc =? 0);
      eexists _, _, _; (split; [reflexivity|]); (split; [same_world|]); done.
  - eexists _, _, _. split; [reflexivity|]. split; [same_world|]. done.
Qed.

(** C5.  In real mode, with a configuration file that lacks the marker,
    [config_secscan] first renames it to the backup path and then writes the
    new configuration, before it starts the install command.  In the files
    handed to the install command the backup holds the old content verbatim
    and the configuration file holds the new text, which declares
    [id: gitleaks] and pins [rev: v] followed by the detected version. *)
Theorem foreign_config_backed_up_then_replaced
    (gitleaks_version pre_commit_version : string) (w : World) (content : string) :
  fs w !! config_path w = Some content ->
  PyStr.contains marker content = false ->
  let p := config_path w in
  let backup := backup_path_of host w in
  let new_config := pre_commit_config gitleaks_version in
  let written := <[p := new_config]> (<[backup := content]> (delete p (fs w))) in
  exists r rest,
    config_secscan host gitleaks_version pre_commit_version false w =
      (r, set_fs (files_after host install_argv (cwd w) written)
            (extend w ([Exists p; ReadText p;
                        Move p backup; Print ("Existing config moved to " +:+ backup);
                        WriteText p new_config; Print ("Wrote " +:+ p);
                        Run install_argv] ++ rest))) /\
    written !! backup = Some content /\
    written !! p = Some new_config /\
    PyStr.contains "id: gitleaks" new_config = true /\
    PyStr.contains ("rev: v" +:+ gitleaks_version +:+ PyStr.nl) new_config = true.
Proof.
  unfold config_path, backup_path_of. intros Hfile Hmarker. cbv zeta.
  assert (Hne : joinpath (cwd w) config_name <>
                joinpath (cwd w) (".pre-commit-config.yaml-" +:+
                  strftime_compact (fromtimestamp (utcoffset host) (clock w)))).
  { intros Heq. apply joinpath_inj in Heq. symmetry in Heq.
    change (".pre-commit-config.yaml-" +:+ ?ts)
      with (config_name +:+ ("-" +:+ ts)) in Heq.
    by apply append_nonempty_neq in Heq. }
  unfold config_secscan, bind, Path_cwd, datetime_now, exists_, read_text, print,
    shutil_move, write_text, subprocess_run_check, files_after, ret.
  rewrite Hfile. step. rewrite Hfile, Hmarker. step. rewrite Hfile. step.
  set (written := <[_ := pre_commit_config gitleaks_version]> _).
  assert (Hbackup : written !! joinpath (cwd w) (".pre-commit-config.yaml-" +:+
            strftime_compact (fromtimestamp (utcoffset host) (clock w))) = Some content).
  { unfold written. rewrite lookup_insert_ne by done. apply lookup_insert_eq. }
  assert (Hnew : written !! joinpath (cwd w) config_name
                 = Some (pre_commit_config gitleaks_version)).
  { unfold written. apply lookup_insert_eq. }
  destruct (spawn host install_argv (cwd w) written) as [[proc files]|].
  - destruct (returncode proc =? 0); eexists _, _;
      (split; [f_equal; same_world|]);
      auto using pre_commit_config_has_marker, pre_commit_config_has_rev.
  - exists (Raise (FileNotFoundError "pre-commit")), [].
    split; [f_equal; same_world|].
    auto using pre_commit_config_has_marker, pre_commit_config_has_rev.
Qed.


End ConfigurationWriter.

Lemma configured_repo_only_installs_witness :
  exists r trace w',
    config_secscan host_ok "1.2.3" "3.0.0" false configured = (r, w') /\
    w' = set_fs (files_after host_ok install_argv (cwd configured) (fs configured))
           (extend configured trace) /\
    forallb (fun e => negb (is_file_mutation e)) trace = true /\
    List.filter is_run trace = [Run install_argv] /\
    (files_after host_ok install_argv (cwd configured) (fs configured)
       !! config_path configured = Some (pre_commit_config "1.2.3") ->
     fs w' !! config_path configured = Some (pre_commit_config "1.2.3")).
Proof.
  apply (configured_repo_only_installs host_ok "1.2.3" "3.0.0" configured
           (pre_commit_config "1.2.3")); reflexivity.
Defined.

Lemma foreign_config_backed_up_then_replaced_witness :
  exists r w',
    config_secscan host_ok "1.2.3" "3.0.0" false foreign = (r, w') /\
    PyStr.contains "id: gitleaks" (pre_commit_config "1.2.3") = true.
Proof.
  destruct (foreign_config_backed_up_then_replaced host_ok "1.2.3" "3.0.0" foreign
              other_config) as (r & rest & Hrun & _ & _ & Hmarker & _);
    [reflexivity | reflexivity |].
  eexists r, _. split; [exact Hrun | exact Hmarker].
Defined.


(** ** Backup name *)

(** The stamp has the shape of [YYYYMMDDThhmmssZ]: eight characters, [T],
    six characters, [Z]. *)
Lemma strftime_compact_shape (dt : datetime) :
  exists date time,
    String.length date = 8%nat /\ String.length time = 6%nat /\
    strftime_compact dt = date +:+ "T" +:+ time +:+ "Z".
Proof.
  exists (dec4 (year dt) +:+ dec2 (month dt) +:+ dec2 (day dt)),
         (dec2 (hour dt) +:+ dec2 (minute dt) +:+ dec2 (second dt)).
  split; [reflexivity|]. split; [reflexivity|]. reflexivity.
Qed.

(** The backup lies next to the configuration file and is named after it,
    with a dash and the stamp of the local wall clock. *)
Lemma backup_path_of_name (host : Host) (w : World) :
  backup_path_of host w =
    joinpath (cwd w)
      (config_name +:+ "-" +:+
       strftime_compact (fromtimestamp (utcoffset host) (clock w))).
Proof. reflexivity. Qed.

(** On a host whose local time is UTC the stamp is the UTC time. *)
Lemma backup_path_of_utc_host (host : Host) (w : World) :
  utcoffset host = 0 ->
  backup_path_of host w = joinpath (cwd w) (config_name +:+ "-" +:+ utc_stamp w).
Proof. intros Hutc. unfold backup_path_of, utc_stamp. by rewrite Hutc. Qed.

(** C6.  On a host at UTC+05:30, a real run at 2025-09-09 00:00:00 UTC over
    a configuration file without the marker moves it to a backup whose stamp
    is [20250909T053000Z], the local wall clock followed by the literal [Z],
    while the UTC stamp of that instant is [20250909T000000Z]; no file of
    that name exists afterwards. *)
Theorem backup_stamp_is_local_time :
  let w' := snd (config_secscan host_ok "1.2.3" "3.0.0" false foreign) in
  utcoffset host_ok = 19800 /\
  utc_stamp foreign = "20250909T000000Z" /\
  backup_path_of host_ok foreign = "/repo/.pre-commit-config.yaml-20250909T053000Z" /\
  In (Move "/repo/.pre-commit-config.yaml"
        "/repo/.pre-commit-config.yaml-20250909T053000Z") (events w') /\
  fs w' !! "/repo/.pre-commit-config.yaml-20250909T053000Z" = Some other_config /\
  fs w' !! ("/repo/.pre-commit-config.yaml-" +:+ utc_stamp foreign) = None.
Proof.
  cbv zeta. repeat split; try reflexivity.
  vm_compute. tauto.
Qed.

(** ** Main block and exit codes *)

Section MainBlock.

Variable host : Host.

(** The environment check starts the top-level query and nothing else. *)
Lemma check_in_repo_trace (w w1 : World) r :
  check_in_repo host w = (r, w1) ->
  events w1 = (events w ++ [Run toplevel_argv])%list.
Proof.
  rewrite check_in_repo_unfold. cbv zeta.
  destruct (spawn host toplevel_argv (cwd w) (fs w)) as [[proc files]|];
    [destruct (returncode proc =? 0)|]; by intros [= <- <-].
Qed.

(** The tool probe performs no configuration action. *)
Lemma check_commands_trace (w w2 : World) r :
  check_commands host w = (r, w2) ->
  exists trace,
    events w2 = (events w ++ trace)%list /\
    forallb (fun e => negb (is_config_action e)) trace = true.
Proof.
  unfold check_commands, bind, try_except_CalledProcessError, shutil_which,
    subprocess_run_check, index, ret, raise.
  destruct (which host "gitleaks").
  2: { intros [= <- <-]. eexists. split; [step; grow_trace | reflexivity]. }
  step.
  destruct (spawn host ["gitleaks"; "version"] (cwd w) (fs w)) as [[gproc gfiles]|].
  2: { intros [= <- <-]. eexists. split; [step; grow_trace | reflexivity]. }
  destruct (returncode gproc =? 0); step.
  - destruct (nth_error (PyStr.split_ws (PyStr.strip (stdout gproc))) 0); step.
    2: { intros [= <- <-]. eexists. split; [step; grow_trace | reflexivity]. }
    destruct (which host "pre-commit").
    2: { intros [= <- <-]. eexists. split; [step; grow_trace | reflexivity]. }
    step.
    destruct (spawn host ["pre-commit"; "--version"] (cwd w) gfiles) as [[pproc pfiles]|].
    2: { intros [= <- <-]. eexists. split; [step; grow_trace | reflexivity]. }
    destruct (returncode pproc =? 0); step.
    + destruct (nth_error (PyStr.split_on " " (PyStr.strip (stdout pproc))) 1); step;
        intros [= <- <-]; eexists; (split; [step; grow_trace | reflexivity]).
    + intros [= <- <-]. eexists. split; [step; grow_trace | reflexivity].
  - destruct (which host "pre-commit").
    2: { intros [= <- <-]. eexists. split; [step; grow_trace | reflexivity]. }
    step.
    destruct (spawn host ["pre-commit"; "--version"] (cwd w) gfiles) as [[pproc pfiles]|].
    2: { intros [= <- <-]. eexists. split; [step; grow_trace | reflexivity]. }
    destruct (returncode pproc =? 0); step.
    + destruct (nth_error (PyStr.split_on " " (PyStr.strip (stdout pproc))) 1); step;
        intros [= <- <-]; eexists; (split; [step; grow_trace | reflexivity]).
    + intros [= <- <-]. eexists. split; [step; grow_trace | reflexivity].
Qed.

(** C8.  The exit status is 1 when the environment check answers [False],
    and 1 when the tool probe reports either tool with status [False]; in
    both cases nothing the script did up to the exit is a file mutation or
    the install command.  It is 0 when the simulation returns and 0 when
    the real setup returns. *)
Theorem exit_codes (args : Args) (w : World) :
  (forall w1,
     check_in_repo host w = (Ret false, w1) ->
     exists w' trace,
       exit_status host args w = (1, w') /\
       events w' = (events w ++ trace)%list /\
       forallb (fun e => negb (is_config_action e)) trace = true) /\
  (forall w1 cs w2,
     check_in_repo host w = (Ret true, w1) ->
     check_commands host w1 = (Ret cs, w2) ->
     status (gitleaks cs) && status (pre_commit cs) = false ->
     exists w' trace,
       exit_status host args w = (1, w') /\
       events w' = (events w ++ trace)%list /\
       forallb (fun e => negb (is_config_action e)) trace = true) /\
  (forall w1 cs w2 w3,
     check_in_repo host w = (Ret true, w1) ->
     check_commands host w1 = (Ret cs, w2) ->
     status (gitleaks cs) && status (pre_commit cs) = true ->
     dry_run args = true ->
     config_secscan host (version (gitleaks cs)) (version (pre_commit cs)) true w2
       = (Ret tt, w3) ->
     exit_status host args w = (0, w3)) /\
  (forall w1 cs w2 w3,
     check_in_repo host w = (Ret true, w1) ->
     check_commands host w1 = (Ret cs, w2) ->
     status (gitleaks cs) && status (pre_commit cs) = true ->
     dry_run args = false ->
     setup args = true ->
     config_secscan host (version (gitleaks cs)) (version (pre_commit cs)) false w2
       = (Ret tt, w3) ->
     exit_status host args w = (0, w3)).
Proof.
  unfold exit_status, main, bind, when, sys_exit, print, ret.
  split; [|split; [|split]].
  - intros w1 Hrepo. rewrite Hrepo. step. cbn [negb]. step.
    apply check_in_repo_trace in Hrepo.
    eexists _, _. split; [reflexivity|]. step. rewrite Hrepo.
    split; [grow_trace | reflexivity].
  - intros w1 cs w2 Hrepo Hprobe Hstatus. rewrite Hrepo. step. cbn [negb]. step.
    rewrite Hprobe. step. rewrite Hstatus. cbn [negb]. step.
    apply check_in_repo_trace in Hrepo.
    apply check_commands_trace in Hprobe as (probe & Hprobe & Hquiet).
    eexists _, _. split; [reflexivity|]. step.
    rewrite Hprobe, Hrepo. split; [grow_trace|].
    rewrite !forallb_app, Hquiet. reflexivity.
  - intros w1 cs w2 w3 Hrepo Hprobe Hstatus Hdry Hrun. rewrite Hrepo. step. cbn [negb]. step.
    rewrite Hprobe. step. rewrite Hstatus, Hdry. cbn [negb]. step. by rewrite Hrun.
  - intros w1 cs w2 w3 Hrepo Hprobe Hstatus Hdry Hsetup Hrun. rewrite Hrepo. step. cbn [negb]. step.
    rewrite Hprobe. step. rewrite Hstatus, Hdry, Hsetup. cbn [negb]. step. by rewrite Hrun.
Qed.

(** An error that leaves [config_secscan] in a real run is not caught by
    the main block: the process ends with status 1. *)
Lemma setup_error_exit_status (args : Args) (w w1 w2 w3 : World) cs e :
  check_in_repo host w = (Ret true, w1) ->
  check_commands host w1 = (Ret cs, w2) ->
  status (gitleaks cs) && status (pre_commit cs) = true ->
  dry_run args = false ->
  setup args = true ->
  config_secscan host (version (gitleaks cs)) (version (pre_commit cs)) false w2
    = (Raise e, w3) ->
  exit_status host args w = (1, w3).
Proof.
  intros Hrepo Hprobe Hstatus Hdry Hsetup Hrun.
  unfold exit_status, main, bind, when, sys_exit, print, ret.
  rewrite Hrepo. step. cbn [negb]. step. rewrite Hprobe. step.
  rewrite Hstatus, Hdry, Hsetup. cbn [negb]. step. by rewrite Hrun.
Qed.

End MainBlock.

Lemma exit_codes_witness :
  exists w' trace,
    exit_status host_ok {| setup := true; dry_run := false |} nested = (1, w') /\
    events w' = (events nested ++ trace)%list /\
    forallb (fun e => negb (is_config_action e)) trace = true.
Proof.
  destruct (exit_codes host_ok {| setup := true; dry_run := false |} nested)
    as (Hroot & _).
  eapply Hroot. reflexivity.
Defined.

(** * Further properties *)

Import Hosts.

(** ** More on strings *)

Lemma all_chars_append test (a b : string) :
  all_chars test (a +:+ b) = all_chars test a && all_chars test b.
Proof. induction a as [|c a IH]; simpl; [done|]. by rewrite IH, andb_assoc. Qed.

Lemma all_chars_rev_app test (a b : string) :
  all_chars test (String.rev_app a b) = all_chars test a && all_chars test b.
Proof.
  revert b. induction a as [|c a IH]; intros b; simpl; [done|].
  rewrite IH. simpl. destruct (test c), (all_chars test a); simpl; try done.
Qed.

Lemma all_chars_rev test (s : string) :
  all_chars test (String.rev s) = all_chars test s.
Proof. unfold String.rev. rewrite all_chars_rev_app. simpl. apply andb_true_r. Qed.

(** The tokens of [s.split()] hold no white space, whatever token was being
    read. *)
Lemma split_ws_aux_no_white_space (cur : option string) (s : string) :
  (forall w, cur = Some w -> no_white_space w = true) ->
  Forall (fun tok => no_white_space tok = true) (PyStr.split_ws_aux cur s).
Proof.
  revert cur. induction s as [|c s IH]; intros cur Hcur; simpl.
  - destruct cur as [w|]; [|constructor].
    constructor; [|constructor]. unfold no_white_space.
    rewrite all_chars_rev. by apply Hcur.
  - destruct (PyStr.isspace c) eqn:Hc.
    + destruct cur as [w|].
      * constructor.
        -- unfold no_white_space. rewrite all_chars_rev. by apply Hcur.
        -- apply IH. done.
      * apply IH. done.
    + destruct cur as [w|]; apply IH; intros w' [= <-]; unfold no_white_space; simpl;
        rewrite Hc; simpl; [by apply Hcur | done].
Qed.

Lemma split_ws_no_white_space (s : string) :
  Forall (fun tok => no_white_space tok = true) (PyStr.split_ws s).
Proof. apply split_ws_aux_no_white_space. done. Qed.

Lemma drop_prefix_all_chars test (p s rest : string) :
  PyStr.drop_prefix p s = Some rest ->
  all_chars test s = true -> all_chars test rest = true.
Proof.
  revert s. induction p as [|a p IH]; intros s; simpl.
  - by intros [= ->].
  - destruct s as [|b s]; [done|]. destruct (Ascii.eqb a b); [|done].
    simpl. intros Hdrop [_ Hs]%andb_true_iff. by apply (IH s).
Qed.

Lemma removeprefix_all_chars test (p s : string) :
  all_chars test s = true -> all_chars test (PyStr.removeprefix p s) = true.
Proof.
  unfold PyStr.removeprefix. destruct (PyStr.drop_prefix p s) eqn:Hdrop; [|done].
  by apply drop_prefix_all_chars with (p := p) (s := s).
Qed.

(** A string without the separator is a single field. *)
Lemma split_on_single_field (sep : ascii) (s : string) :
  all_chars (fun c => negb (Ascii.eqb c sep)) s = true ->
  PyStr.split_on sep s = [s].
Proof.
  induction s as [|c s IH]; simpl; [done|].
  intros [Hc Hs]%andb_true_iff. apply negb_true_iff in Hc. rewrite Hc.
  by rewrite (IH Hs).
Qed.

(** ** More on the tool probe *)

(** Case analysis of a run of [check_commands]. *)
Ltac probe_cases :=
  unfold check_commands, bind, try_except_CalledProcessError, shutil_which,
    subprocess_run_check, index, ret, raise;
  repeat (step;
    match goal with
    | |- context [which ?h ?name] => destruct (which h name) eqn:?
    | |- context [spawn ?h ?argv ?here ?files] =>
        destruct (spawn h argv here files) as [[? ?]|] eqn:?
    | |- context [returncode ?proc =? 0] => destruct (returncode proc =? 0) eqn:?
    | |- context [nth_error ?l ?i] => destruct (nth_error l i) eqn:?
    end).

Section MoreToolProbe.

Variable host : Host.

(** X1.  A tool reported with status [False] has an empty version, and a
    tool is reported with status [True] only when both executables were
    found on the search path. *)
Theorem check_commands_report_invariant (w w2 : World) (cs : CommandsStatus) :
  check_commands host w = (Ret cs, w2) ->
  (status (gitleaks cs) = false -> version (gitleaks cs) = "") /\
  (status (pre_commit cs) = false -> version (pre_commit cs) = "") /\
  (status (gitleaks cs) = true \/ status (pre_commit cs) = true ->
   which host "gitleaks" <> None /\ which host "pre-commit" <> None).
Proof.
  probe_cases; intros ?; simplify_eq; simpl;
    (split; [done|]); (split; [done|]); intros [?|?]; done.
Qed.

(** X2.  The probe does its four actions in a fixed order and stops early
    or runs to the end: what it adds to the trace is an initial segment of
    lookup of gitleaks, [gitleaks version], lookup of pre-commit,
    [pre-commit --version]. *)
Theorem check_commands_probe_order (w : World) :
  exists trace rest,
    events (snd (check_commands host w)) = (events w ++ trace)%list /\
    (trace ++ rest)%list = probe_actions.
Proof.
  probe_cases; simpl; eexists _, _; (split; [grow_trace | reflexivity]).
Qed.

(** X3.  The gitleaks version reported with status [True] holds no white
    space, so the [rev:] line written from it stays one line. *)
Theorem gitleaks_version_no_white_space (w w2 : World) (cs : CommandsStatus) :
  check_commands host w = (Ret cs, w2) ->
  status (gitleaks cs) = true ->
  no_white_space (version (gitleaks cs)) = true.
Proof.
  probe_cases; intros ?; simplify_eq; simpl; try done; intros _;
    match goal with
    | H : nth_error (PyStr.split_ws ?s) 0%nat = Some ?tok |- _ =>
        unfold no_white_space; apply removeprefix_all_chars;
        apply nth_error_In in H;
        pose proof (split_ws_no_white_space s) as Hall;
        rewrite List.Forall_forall in Hall; by apply Hall
    end.
Qed.

(** X4.  When [gitleaks version] exits with status 0 but prints no token,
    the index [0] raises [IndexError], which the handler for
    [CalledProcessError] lets through: [check_commands] does not return and
    pre-commit is not looked at. *)
Theorem check_commands_gitleaks_no_token (w : World) proc files :
  which host "gitleaks" <> None ->
  spawn host ["gitleaks"; "version"] (cwd w) (fs w) = Some (proc, files) ->
  returncode proc = 0 ->
  PyStr.split_ws (PyStr.strip (stdout proc)) = [] ->
  check_commands host w =
    (Raise IndexError,
     set_fs files (log (Run ["gitleaks"; "version"]) (log (Which "gitleaks") w))).
Proof.
  intros Hfound Hrun Hrc Hnone.
  unfold check_commands, bind, try_except_CalledProcessError, shutil_which,
    subprocess_run_check, index, ret, raise.
  destruct (which host "gitleaks"); [|done]. step.
  rewrite Hrun, Hrc. step. change (0 =? 0) with true. step. by rewrite Hnone.
Qed.

(** X5.  When [pre-commit --version] exits with status 0 and its stripped
    output holds no space, there is no field of index [1]: [check_commands]
    ends with [IndexError] although both tools are installed and gitleaks
    was read. *)
Theorem check_commands_pre_commit_one_field (w : World) gproc gfiles gtok pproc pfiles :
  which host "gitleaks" <> None ->
  spawn host ["gitleaks"; "version"] (cwd w) (fs w) = Some (gproc, gfiles) ->
  returncode gproc = 0 ->
  nth_error (PyStr.split_ws (PyStr.strip (stdout gproc))) 0 = Some gtok ->
  which host "pre-commit" <> None ->
  spawn host ["pre-commit"; "--version"] (cwd w) gfiles = Some (pproc, pfiles) ->
  returncode pproc = 0 ->
  all_chars (fun c => negb (Ascii.eqb c " ")) (PyStr.strip (stdout pproc)) = true ->
  fst (check_commands host w) = Raise IndexError.
Proof.
  intros Hg Hgrun Hgrc Hgtok Hp Hprun Hprc Hfield.
  unfold check_commands, bind, try_except_CalledProcessError, shutil_which,
    subprocess_run_check, index, ret, raise.
  destruct (which host "gitleaks"); [|done]. step.
  rewrite Hgrun, Hgrc. step. change (0 =? 0) with true. step. rewrite Hgtok. step.
  destruct (which host "pre-commit"); [|done]. step.
  rewrite Hprun, Hprc. step. change (0 =? 0) with true. step.
  by rewrite (split_on_single_field _ _ Hfield).
Qed.

(** X6.  A gitleaks whose version command exits with another status than 0
    is reported with status [False] and an empty version, and pre-commit is
    still probed and reported for itself. *)
Theorem check_commands_gitleaks_broken (w : World) gproc gfiles pproc pfiles ptok :
  which host "gitleaks" <> None ->
  spawn host ["gitleaks"; "version"] (cwd w) (fs w) = Some (gproc, gfiles) ->
  returncode gproc <> 0 ->
  which host "pre-commit" <> None ->
  spawn host ["pre-commit"; "--version"] (cwd w) gfiles = Some (pproc, pfiles) ->
  returncode pproc = 0 ->
  nth_error (PyStr.split_on " " (PyStr.strip (stdout pproc))) 1 = Some ptok ->
  fst (check_commands host w) =
    Ret {| gitleaks := {| status := false; version := "" |};
           pre_commit := {| status := true; version := ptok |} |}.
Proof.
  intros Hg Hgrun Hgrc Hp Hprun Hprc Hptok. apply Z.eqb_neq in Hgrc.
  unfold check_commands, bind, try_except_CalledProcessError, shutil_which,
    subprocess_run_check, index, ret, raise.
  destruct (which host "gitleaks"); [|done]. step.
  rewrite Hgrun, Hgrc. step.
  destruct (which host "pre-commit"); [|done]. step.
  rewrite Hprun, Hprc. step. change (0 =? 0) with true. step. by rewrite Hptok.
Qed.

End MoreToolProbe.

Lemma check_commands_report_invariant_witness :
  (status (gitleaks not_installed) = false -> version (gitleaks not_installed) = "") /\
  (status (pre_commit not_installed) = false -> version (pre_commit not_installed) = "") /\
  (status (gitleaks not_installed) = true \/ status (pre_commit not_installed) = true ->
   which host_no_pre_commit "gitleaks" <> None /\
   which host_no_pre_commit "pre-commit" <> None).
Proof.
  apply (check_commands_report_invariant host_no_pre_commit fresh
           (snd (check_commands host_no_pre_commit fresh)) not_installed).
  reflexivity.
Defined.

Lemma gitleaks_version_no_white_space_witness : no_white_space "1.2.3" = true.
Proof.
  apply (gitleaks_version_no_white_space plain fresh
           (snd (check_commands plain fresh))
           {| gitleaks := {| status := true; version := "1.2.3" |};
              pre_commit := {| status := true; version := "3.0.0" |} |});
    reflexivity.
Defined.

Lemma check_commands_gitleaks_no_token_witness :
  fst (check_commands silent_gitleaks fresh) = Raise IndexError.
Proof.
  rewrite (check_commands_gitleaks_no_token silent_gitleaks fresh
             {| returncode := 0; stdout := PyStr.nl |} ∅); first [reflexivity | done].
Defined.

Lemma check_commands_pre_commit_one_field_witness :
  fst (check_commands bare_pre_commit fresh) = Raise IndexError.
Proof.
  apply (check_commands_pre_commit_one_field bare_pre_commit fresh
           {| returncode := 0; stdout := "v1.2.3" |} ∅ "v1.2.3"
           {| returncode := 0; stdout := "3.0.0" +:+ PyStr.nl |} ∅);
    first [reflexivity | done].
Defined.

Lemma check_commands_gitleaks_broken_witness :
  fst (check_commands broken_gitleaks fresh) =
    Ret {| gitleaks := {| status := false; version := "" |};
           pre_commit := {| status := true; version := "3.0.0" |} |}.
Proof.
  apply (check_commands_gitleaks_broken broken_gitleaks fresh
           {| returncode := 2; stdout := "" |} ∅
           {| returncode := 0; stdout := "pre-commit 3.0.0" |} ∅ "3.0.0");
    first [reflexivity | done].
Defined.

(** ** More on the configuration writer *)

Lemma startswith_prefix (a b : string) : PyStr.startswith a (a +:+ b) = true.
Proof. induction a as [|c a IH]; simpl; [done | by rewrite Ascii.eqb_refl]. Qed.

Lemma config_path_neq_backup (host : Host) (w : World) :
  config_path w <> backup_path_of host w.
Proof.
  unfold config_path, backup_path_of. intros Heq.
  apply joinpath_inj in Heq. symmetry in Heq.
  change (".pre-commit-config.yaml-" +:+ ?ts)
    with (config_name +:+ ("-" +:+ ts)) in Heq.
  by apply append_nonempty_neq in Heq.
Qed.

Section MoreConfigurationWriter.

Variable host : Host.

(** The three courses of a real run: what precedes the install command,
    the files handed to it, and what follows it. *)
Lemma real_run_cases (gitleaks_version pre_commit_version : string) (w : World) :
  let p := config_path w in
  let backup := backup_path_of host w in
  let new_config := pre_commit_config gitleaks_version in
  exists pre files rest,
    config_secscan host gitleaks_version pre_commit_version false w =
      (install_result host (cwd w) files,
       set_fs (files_after host install_argv (cwd w) files)
         (extend w (pre ++ Run install_argv :: rest))) /\
    ((install_result host (cwd w) files = Ret tt /\ exists line, rest = [Print line]) \/
     (install_result host (cwd w) files <> Ret tt /\ rest = [])) /\
    ((fs w !! p = None /\
      pre = [Exists p; WriteText p new_config; Print ("Wrote " +:+ p)] /\
      files = <[p := new_config]> (fs w)) \/
     (exists content,
        fs w !! p = Some content /\ PyStr.contains marker content = true /\
        pre = [Exists p; ReadText p;
               Print ("Repository already configured with gitleaks rev " +:+
                      gitleaks_version +:+ "; only installing hooks.")] /\
        files = fs w) \/
     (exists content,
        fs w !! p = Some content /\ PyStr.contains marker content = false /\
        pre = [Exists p; ReadText p; Move p backup;
               Print ("Existing config moved to " +:+ backup);
               WriteText p new_config; Print ("Wrote " +:+ p)] /\
        files = <[p := new_config]> (<[backup := content]> (delete p (fs w))))).
Proof.
  cbv zeta. unfold config_path, backup_path_of.
  set (p := joinpath (cwd w) config_name).
  set (backup := joinpath (cwd w) _).
  unfold config_secscan, bind, Path_cwd, datetime_now, exists_, read_text, print,
    shutil_move, write_text, subprocess_run_check, install_result, files_after, ret.
  fold p. fold backup.
  destruct (fs w !! p) as [content|] eqn:Hfile.
  - step. rewrite Hfile.
    destruct (PyStr.contains marker content) eqn:Hmarker; step.
    + exists [Exists p; ReadText p;
              Print ("Repository already configured with gitleaks rev " +:+
                     gitleaks_version +:+ "; only installing hooks.")], (fs w).
      destruct (spawn host install_argv (cwd w) (fs w)) as [[proc files']|].
      * destruct (returncode proc =? 0); step.
        -- eexists [Print _]. split; [f_equal; same_world|]. split; [left; eauto|].
           right. left. eauto.
        -- exists []. split; [f_equal; same_world|]. split; [right; done|].
           right. left. eauto.
      * exists []. split; [f_equal; same_world|]. split; [right; done|].
        right. left. eauto.
    + rewrite Hfile. step.
      exists [Exists p; ReadText p; Move p backup;
              Print ("Existing config moved to " +:+ backup);
              WriteText p (pre_commit_config gitleaks_version); Print ("Wrote " +:+ p)],
             (<[p := pre_commit_config gitleaks_version]>
                (<[backup := content]> (delete p (fs w)))).
      destruct (spawn host install_argv (cwd w) _) as [[proc files']|].
      * destruct (returncode proc =? 0); step.
        -- eexists [Print _]. split; [f_equal; same_world|]. split; [left; eauto|].
           right. right. eauto.
        -- exists []. split; [f_equal; same_world|]. split; [right; done|].
           right. right. eauto.
      * exists []. split; [f_equal; same_world|]. split; [right; done|].
        right. right. eauto.
  - step.
    exists [Exists p; WriteText p (pre_commit_config gitleaks_version);
            Print ("Wrote " +:+ p)],
           (<[p := pre_commit_config gitleaks_version]> (fs w)).
    destruct (spawn host install_argv (cwd w) _) as [[proc files']|].
    + destruct (returncode proc =? 0); step.
      * eexists [Print _]. split; [f_equal; same_world|]. split; [left; eauto|].
        left. eauto.
      * exists []. split; [f_equal; same_world|]. split; [right; done|].
        left. eauto.
    + exists []. split; [f_equal; same_world|]. split; [right; done|].
      left. eauto.
Qed.

(** The three courses of a simulation. *)
Lemma dry_run_cases (gitleaks_version pre_commit_version : string) (w : World) :
  let p := config_path w in
  let backup := backup_path_of host w in
  let new_config := pre_commit_config gitleaks_version in
  exists trace,
    config_secscan host gitleaks_version pre_commit_version true w =
      (Ret tt, extend w trace) /\
    ((fs w !! p = None /\
      trace = [Exists p; Print (would_write p new_config);
               Print "[dry-run] Would run: pre-commit install"]) \/
     (exists content,
        fs w !! p = Some content /\ PyStr.contains marker content = true /\
        trace = [Exists p; ReadText p;
                 Print "[dry-run] gitleaks already configured.";
                 Print "[dry-run] Would run: pre-commit install";
                 Print "[dry-run] Would run: pre-commit install"]) \/
     (exists content,
        fs w !! p = Some content /\ PyStr.contains marker content = false /\
        trace = [Exists p; ReadText p;
                 Print (would_move p backup); Print (would_write p new_config);
                 Print "[dry-run] Would run: pre-commit install"])).
Proof.
  cbv zeta. unfold config_path, backup_path_of, would_move, would_write.
  set (p := joinpath (cwd w) config_name).
  set (backup := joinpath (cwd w) _).
  unfold config_secscan, bind, Path_cwd, datetime_now, exists_, read_text, print, ret.
  fold p. fold backup.
  destruct (fs w !! p) as [content|] eqn:Hfile.
  - step. rewrite Hfile.
    destruct (PyStr.contains marker content) eqn:Hmarker; step.
    + eexists [_; _; _; _; _]. split; [f_equal; same_world|]. right. left. eauto.
    + eexists [_; _; _; _; _]. split; [f_equal; same_world|]. right. right. eauto.
  - step. eexists [_; _; _]. split; [f_equal; same_world|]. left. eauto.
Qed.

End MoreConfigurationWriter.

Section ConfigurationWriterExtras.

Variable host : Host.

(** X7.  In real mode without a configuration file, [config_secscan]
    writes the new configuration and then starts the install command; it
    renames nothing and leaves no backup, and the install command receives
    the old files plus the new configuration. *)
Theorem new_config_written_without_backup
    (gitleaks_version pre_commit_version : string) (w : World) :
  fs w !! config_path w = None ->
  let p := config_path w in
  let new_config := pre_commit_config gitleaks_version in
  exists rest,
    config_secscan host gitleaks_version pre_commit_version false w =
      (install_result host (cwd w) (<[p := new_config]> (fs w)),
       set_fs (files_after host install_argv (cwd w) (<[p := new_config]> (fs w)))
         (extend w ([Exists p; WriteText p new_config; Print ("Wrote " +:+ p);
                     Run install_argv] ++ rest))) /\
    forallb is_descriptive rest = true.
Proof.
  intros Hfile. cbv zeta.
  destruct (real_run_cases host gitleaks_version pre_commit_version w)
    as (pre & files & rest & Hrun & Hrest & Hcase).
  destruct Hcase as [(_ & -> & ->) | [(c & Hc & _) | (c & Hc & _)]];
    [|rewrite Hfile in Hc; discriminate..].
  exists rest. split; [exact Hrun|].
  destruct Hrest as [(_ & line & ->) | (_ & ->)]; reflexivity.
Qed.

(** X8.  A real run touches two paths at most: every file other than the
    configuration file and the backup is handed to the install command as
    it was. *)
Theorem real_run_frame (gitleaks_version pre_commit_version : string) (w : World) :
  exists files,
    fs (snd (config_secscan host gitleaks_version pre_commit_version false w)) =
      files_after host install_argv (cwd w) files /\
    forall q,
      q <> config_path w -> q <> backup_path_of host w ->
      files !! q = fs w !! q.
Proof.
  destruct (real_run_cases host gitleaks_version pre_commit_version w)
    as (pre & files & rest & Hrun & _ & Hcase).
  exists files. rewrite Hrun. split; [reflexivity|].
  intros q Hp Hb.
  destruct Hcase as [(_ & _ & ->) | [(c & _ & _ & _ & ->) | (c & _ & _ & _ & ->)]].
  - by rewrite lookup_insert_ne.
  - done.
  - rewrite lookup_insert_ne by done. rewrite lookup_insert_ne by done.
    by rewrite lookup_delete_ne.
Qed.

(** X9.  What a real run changes itself is nothing, one write, or one
    rename followed by one write; all of it happens before the install
    command, which is started exactly once and followed by prints only. *)
Theorem real_run_actions_in_order
    (gitleaks_version pre_commit_version : string) (w : World) :
  exists pre rest,
    events (snd (config_secscan host gitleaks_version pre_commit_version false w)) =
      (events w ++ pre ++ Run install_argv :: rest)%list /\
    forallb (fun e => negb (is_run e)) pre = true /\
    forallb is_descriptive rest = true /\
    (List.filter is_file_mutation pre = [] \/
     List.filter is_file_mutation pre =
       [WriteText (config_path w) (pre_commit_config gitleaks_version)] \/
     List.filter is_file_mutation pre =
       [Move (config_path w) (backup_path_of host w);
        WriteText (config_path w) (pre_commit_config gitleaks_version)]).
Proof.
  destruct (real_run_cases host gitleaks_version pre_commit_version w)
    as (pre & files & rest & Hrun & Hrest & Hcase).
  exists pre, rest. rewrite Hrun. split; [reflexivity|].
  split; [|split].
  - destruct Hcase as [(_ & -> & _) | [(c & _ & _ & -> & _) | (c & _ & _ & -> & _)]];
      reflexivity.
  - destruct Hrest as [(_ & line & ->) | (_ & ->)]; reflexivity.
  - destruct Hcase as [(_ & -> & _) | [(c & _ & _ & -> & _) | (c & _ & _ & -> & _)]];
      simpl; auto.
Qed.

(** X10.  Once a real run is over, the configuration file exists and holds
    the marker, so a later real run from the same directory over those
    files changes no file, whatever version it detects, and whether or not
    the install command succeeded.  (The install command is taken not to
    alter the configuration file.) *)
Theorem second_setup_changes_no_file
    (gitleaks_version pre_commit_version : string) (w : World) :
  (forall files,
     files_after host install_argv (cwd w) files !! config_path w =
       files !! config_path w) ->
  let w1 := snd (config_secscan host gitleaks_version pre_commit_version false w) in
  (exists content,
     fs w1 !! config_path w = Some content /\
     PyStr.contains marker content = true) /\
  forall gitleaks_version' pre_commit_version' w2,
    cwd w2 = cwd w -> fs w2 = fs w1 ->
    exists trace,
      events (snd (config_secscan host gitleaks_version' pre_commit_version' false w2)) =
        (events w2 ++ trace)%list /\
      forallb (fun e => negb (is_file_mutation e)) trace = true.
Proof.
  intros Hkeep. cbv zeta.
  destruct (real_run_cases host gitleaks_version pre_commit_version w)
    as (pre & files & rest & Hrun & _ & Hcase).
  rewrite Hrun. cbn [snd fs set_fs].
  assert (Hdone : exists content,
             files_after host install_argv (cwd w) files !! config_path w = Some content /\
             PyStr.contains marker content = true).
  { rewrite Hkeep.
    destruct Hcase as [(_ & _ & ->) | [(c & Hc & Hm & _ & ->) | (c & _ & _ & _ & ->)]].
    - eexists. split; [apply lookup_insert_eq | apply pre_commit_config_has_marker].
    - by exists c.
    - eexists. split; [apply lookup_insert_eq | apply pre_commit_config_has_marker]. }
  split; [exact Hdone|].
  intros v' pv' w2 Hcwd Hfs. destruct Hdone as (content & Hfile & Hmarker).
  destruct (real_run_cases host v' pv' w2)
    as (pre2 & files2 & rest2 & Hrun2 & Hrest2 & Hcase2).
  assert (Hfile2 : fs w2 !! config_path w2 = Some content).
  { unfold config_path in *. by rewrite Hcwd, Hfs. }
  exists (pre2 ++ Run install_argv :: rest2)%list. rewrite Hrun2.
  split; [reflexivity|].
  destruct Hcase2 as [(Hc & _) | [(c & _ & _ & -> & _) | (c & Hc & Hm & _)]].
  - rewrite Hfile2 in Hc. discriminate.
  - destruct Hrest2 as [(_ & line & ->) | (_ & ->)]; reflexivity.
  - rewrite Hfile2 in Hc. injection Hc as <-. rewrite Hmarker in Hm. discriminate.
Qed.

(** X11.  The simulation tells what the real run over the same world does:
    it announces the move to the backup exactly when the real run renames
    the file to that path, it announces the write with its content exactly
    when the real run writes that content, and it always announces the
    install command, which the real run always starts. *)
Theorem dry_run_previews_real_run
    (gitleaks_version pre_commit_version : string) (w : World) :
  let p := config_path w in
  let backup := backup_path_of host w in
  let new_config := pre_commit_config gitleaks_version in
  exists dry real,
    config_secscan host gitleaks_version pre_commit_version true w =
      (Ret tt, extend w dry) /\
    events (snd (config_secscan host gitleaks_version pre_commit_version false w)) =
      (events w ++ real)%list /\
    (In (Print (would_move p backup)) dry <-> In (Move p backup) real) /\
    (In (Print (would_write p new_config)) dry <-> In (WriteText p new_config) real) /\
    In (Print "[dry-run] Would run: pre-commit install") dry /\
    In (Run install_argv) real.
Proof.
  cbv zeta.
  destruct (dry_run_cases host gitleaks_version pre_commit_version w)
    as (dry & Hdry & Hdcase).
  destruct (real_run_cases host gitleaks_version pre_commit_version w)
    as (pre & files & rest & Hreal & Hrest & Hrcase).
  exists dry, (pre ++ Run install_argv :: rest)%list.
  split; [exact Hdry|]. rewrite Hreal. split; [reflexivity|].
  assert (Hrest' : forall e, In e rest -> exists line, e = Print line).
  { destruct Hrest as [(_ & line & ->) | (_ & ->)]; intros e; simpl; [|tauto].
    intros [<-|[]]. by exists line. }
  assert (Hmove_rest : ~ In (Move (config_path w) (backup_path_of host w)) rest).
  { intros (line & Hline)%Hrest'. discriminate. }
  assert (Hwrite_rest :
    ~ In (WriteText (config_path w) (pre_commit_config gitleaks_version)) rest).
  { intros (line & Hline)%Hrest'. discriminate. }
  destruct Hdcase as [(Hnone & ->) | [(c & Hc & Hm & ->) | (c & Hc & Hm & ->)]];
    destruct Hrcase as [(Hnone' & -> & _) | [(c' & Hc' & Hm' & -> & _) |
                                             (c' & Hc' & Hm' & -> & _)]];
    try (rewrite Hnone in Hc'; discriminate);
    try (rewrite Hnone' in Hc; discriminate);
    try (rewrite Hc in Hc'; injection Hc' as <-; rewrite Hm in Hm'; discriminate).
  all: rewrite !in_app_iff; unfold would_move, would_write; simpl.
  all: repeat split; try tauto.
  all: try (intros H; repeat destruct H as [H|H]; try discriminate H; tauto).
Qed.

(** X12.  The test for the hook is a test for a substring: a file that
    holds [id: gitleaks] anywhere, whatever stands before and after it,
    counts as configured, and a real run changes no file. *)
Theorem marker_anywhere_counts_as_configured
    (gitleaks_version pre_commit_version : string) (w : World) (before after : string) :
  fs w !! config_path w = Some (before +:+ "id: gitleaks" +:+ after) ->
  exists trace,
    events (snd (config_secscan host gitleaks_version pre_commit_version false w)) =
      (events w ++ trace)%list /\
    forallb (fun e => negb (is_file_mutation e)) trace = true.
Proof.
  intros Hfile.
  assert (Hmarker : PyStr.contains marker (before +:+ "id: gitleaks" +:+ after) = true).
  { apply contains_append_r, contains_here, startswith_prefix. }
  destruct (real_run_cases host gitleaks_version pre_commit_version w)
    as (pre & files & rest & Hrun & Hrest & Hcase).
  exists (pre ++ Run install_argv :: rest)%list. rewrite Hrun. split; [reflexivity|].
  destruct Hcase as [(Hc & _) | [(c & _ & _ & -> & _) | (c & Hc & Hm & _)]].
  - rewrite Hfile in Hc. discriminate.
  - destruct Hrest as [(_ & line & ->) | (_ & ->)]; reflexivity.
  - rewrite Hfile in Hc. injection Hc as <-. rewrite Hmarker in Hm. discriminate.
Qed.

End ConfigurationWriterExtras.

Lemma new_config_written_without_backup_witness :
  exists rest,
    config_secscan host_ok "1.2.3" "3.0.0" false fresh =
      (install_result host_ok "/repo"
         (<["/repo/.pre-commit-config.yaml" := pre_commit_config "1.2.3"]> ∅),
       set_fs (files_after host_ok install_argv "/repo"
                 (<["/repo/.pre-commit-config.yaml" := pre_commit_config "1.2.3"]> ∅))
         (extend fresh
            ([Exists "/repo/.pre-commit-config.yaml";
              WriteText "/repo/.pre-commit-config.yaml" (pre_commit_config "1.2.3");
              Print "Wrote /repo/.pre-commit-config.yaml";
              Run install_argv] ++ rest))) /\
    forallb is_descriptive rest = true.
Proof.
  apply (new_config_written_without_backup host_ok "1.2.3" "3.0.0" fresh).
  reflexivity.
Defined.

Lemma second_setup_changes_no_file_witness :
  exists content,
    fs (snd (config_secscan plain "1.2.3" "3.0.0" false foreign))
      !! "/repo/.pre-commit-config.yaml" = Some content /\
    PyStr.contains marker content = true.
Proof.
  apply (second_setup_changes_no_file plain "1.2.3" "3.0.0" foreign).
  intros files. reflexivity.
Defined.

Lemma marker_anywhere_counts_as_configured_witness :
  exists trace,
    events (snd (config_secscan host_ok "1.2.3" "3.0.0" false commented)) =
      (events commented ++ trace)%list /\
    forallb (fun e => negb (is_file_mutation e)) trace = true.
Proof.
  apply (marker_anywhere_counts_as_configured host_ok "1.2.3" "3.0.0" commented
           "# no " (" here" +:+ PyStr.nl)).
  reflexivity.
Defined.

(** ** More on the main block *)

Section MainBlockExtras.

Variable host : Host.

Lemma check_in_repo_no_exit (w w1 : World) code :
  check_in_repo host w <> (SysExit code, w1).
Proof.
  rewrite check_in_repo_unfold. cbv zeta.
  destruct (spawn host toplevel_argv (cwd w) (fs w)) as [[proc files]|];
    [destruct (returncode proc =? 0)|]; discriminate.
Qed.

Lemma check_commands_no_exit (w w2 : World) code :
  check_commands host w <> (SysExit code, w2).
Proof. probe_cases; discriminate. Qed.

Lemma config_secscan_no_exit (gitleaks_version pre_commit_version : string)
    (dry : bool) (w w3 : World) code :
  config_secscan host gitleaks_version pre_commit_version dry w <> (SysExit code, w3).
Proof.
  destruct dry.
  - destruct (dry_run_cases host gitleaks_version pre_commit_version w)
      as (trace & -> & _). discriminate.
  - destruct (real_run_cases host gitleaks_version pre_commit_version w)
      as (pre & files & rest & -> & _).
    unfold install_result.
    destruct (spawn host install_argv (cwd w) files) as [[proc files']|];
      [destruct (returncode proc =? 0)|]; discriminate.
Qed.

(** X13.  For a run that has reached the main block, that is with the
    namespace of a command line the parser accepted (exactly one flag set),
    the exit status is 0 or 1, and it is 0 only when the environment check
    returned [True] and the tool probe returned both tools with status
    [True]. *)
Theorem exit_status_zero_needs_both_checks (args : Args) (w : World) :
  setup args = negb (dry_run args) ->
  (fst (exit_status host args w) = 0 \/ fst (exit_status host args w) = 1) /\
  (fst (exit_status host args w) = 0 ->
   exists w1 cs w2,
     check_in_repo host w = (Ret true, w1) /\
     check_commands host w1 = (Ret cs, w2) /\
     status (gitleaks cs) = true /\ status (pre_commit cs) = true).
Proof.
  intros _.
  unfold exit_status, main, bind, when, sys_exit, print, ret.
  destruct (check_in_repo host w) as [[[|]|e|code] w1] eqn:Hrepo; step; cbn [negb]; step.
  - destruct (check_commands host w1) as [[cs|e|code] w2] eqn:Hprobe; step.
    + destruct (status (gitleaks cs)) eqn:Hg, (status (pre_commit cs)) eqn:Hp;
        cbn [andb negb]; step; try (split; [by right | done]).
      destruct (dry_run args); step.
      * destruct (config_secscan host _ _ true w2) as [[[]|e|code] w3] eqn:Hrun; step.
        -- split; [by left|]. intros _. by exists w1, cs, w2.
        -- split; [by right | done].
        -- by apply config_secscan_no_exit in Hrun.
      * destruct (setup args); step.
        -- destruct (config_secscan host _ _ false w2) as [[[]|e|code] w3] eqn:Hrun; step.
           ++ split; [by left|]. intros _. by exists w1, cs, w2.
           ++ split; [by right | done].
           ++ by apply config_secscan_no_exit in Hrun.
        -- split; [by left|]. intros _. by exists w1, cs, w2.
    + split; [by right | done].
    + by apply check_commands_no_exit in Hprobe.
  - split; [by right | done].
  - split; [by right | done].
  - by apply check_in_repo_no_exit in Hrepo.
Qed.

(** X14.  With [--dry-run] the whole script, from the environment check to
    its exit, writes no file, renames none and does not start the install
    command, on every host and in every world. *)
Theorem dry_run_script_no_config_action (args : Args) (w : World) :
  dry_run args = true ->
  exists trace,
    events (snd (exit_status host args w)) = (events w ++ trace)%list /\
    forallb (fun e => negb (is_config_action e)) trace = true.
Proof.
  intros Hdry.
  unfold exit_status, main, bind, when, sys_exit, print, ret. rewrite Hdry.
  destruct (check_in_repo host w) as [[[|]|e|code] w1] eqn:Hrepo; step; cbn [negb]; step;
    apply check_in_repo_trace in Hrepo.
  - destruct (check_commands host w1) as [[cs|e|code] w2] eqn:Hprobe; step;
      apply check_commands_trace in Hprobe as (probe & Hprobe & Hquiet).
    + destruct (status (gitleaks cs) && status (pre_commit cs)); cbn [negb]; step.
      * destruct (dry_run_cases host (version (gitleaks cs)) (version (pre_commit cs)) w2)
          as (trace & -> & Hcase). step. cbn [snd]. unfold extend. step.
        exists ([Run toplevel_argv] ++ probe ++ trace)%list.
        rewrite Hprobe, Hrepo. split; [by rewrite <- !app_assoc|].
        rewrite !forallb_app, Hquiet.
        destruct Hcase as [(_ & ->) | [(c & _ & _ & ->) | (c & _ & _ & ->)]]; reflexivity.
      * cbn [snd]. step. eexists ([Run toplevel_argv] ++ probe ++ [_; _; _])%list.
        rewrite Hprobe, Hrepo. split; [by rewrite <- !app_assoc|].
        rewrite !forallb_app, Hquiet. reflexivity.
    + cbn [snd]. exists ([Run toplevel_argv] ++ probe)%list. rewrite Hprobe, Hrepo.
      split; [by rewrite <- !app_assoc|]. rewrite !forallb_app, Hquiet. reflexivity.
    + cbn [snd]. exists ([Run toplevel_argv] ++ probe)%list. rewrite Hprobe, Hrepo.
      split; [by rewrite <- !app_assoc|]. rewrite !forallb_app, Hquiet. reflexivity.
  - cbn [snd]. step. eexists [_; _]. rewrite Hrepo. split; [by rewrite <- !app_assoc|]. reflexivity.
  - cbn [snd]. exists [Run toplevel_argv]. by rewrite Hrepo.
  - cbn [snd]. exists [Run toplevel_argv]. by rewrite Hrepo.
Qed.

(** X15.  When [git] cannot be started, [check_in_repo] answers neither
    [True] nor [False]: the [FileNotFoundError] leaves it, the main block
    prints nothing and the process ends with status 1 after that one
    attempt. *)
Theorem git_missing_is_an_error (args : Args) (w : World) :
  spawn host toplevel_argv (cwd w) (fs w) = None ->
  check_in_repo host w = (Raise (FileNotFoundError "git"), log (Run toplevel_argv) w) /\
  exit_status host args w = (1, log (Run toplevel_argv) w).
Proof.
  intros Hnone.
  assert (Hrepo : check_in_repo host w =
                  (Raise (FileNotFoundError "git"), log (Run toplevel_argv) w)).
  { rewrite check_in_repo_unfold. cbv zeta. by rewrite Hnone. }
  split; [exact Hrepo|].
  unfold exit_status, main, bind. by rewrite Hrepo.
Qed.

End MainBlockExtras.

Lemma exit_status_zero_needs_both_checks_witness :
  exists w1 cs w2,
    check_in_repo host_ok fresh = (Ret true, w1) /\
    check_commands host_ok w1 = (Ret cs, w2) /\
    status (gitleaks cs) = true /\ status (pre_commit cs) = true.
Proof.
  apply (exit_status_zero_needs_both_checks host_ok
           {| setup := true; dry_run := false |} fresh).
  - reflexivity.
  - reflexivity.
Defined.

Lemma dry_run_script_no_config_action_witness :
  exists trace,
    events (snd (exit_status host_ok {| setup := false; dry_run := true |} foreign)) =
      (events foreign ++ trace)%list /\
    forallb (fun e => negb (is_config_action e)) trace = true.
Proof.
  apply (dry_run_script_no_config_action host_ok
           {| setup := false; dry_run := true |} foreign).
  reflexivity.
Defined.

Lemma git_missing_is_an_error_witness :
  check_in_repo no_git fresh =
    (Raise (FileNotFoundError "git"), log (Run toplevel_argv) fresh) /\
  exit_status no_git {| setup := true; dry_run := false |} fresh =
    (1, log (Run toplevel_argv) fresh).
Proof.
  apply (git_missing_is_an_error no_git {| setup := true; dry_run := false |} fresh).
  reflexivity.
Defined.

Lemma real_run_frame_witness :
  exists files,
    fs (snd (config_secscan plain "1.2.3" "3.0.0" false foreign)) =
      files_after plain install_argv "/repo" files /\
    files !! "/repo/README.md" = fs foreign !! "/repo/README.md".
Proof.
  destruct (real_run_frame plain "1.2.3" "3.0.0" foreign) as (files & Hfiles & Hframe).
  exists files. split; [exact Hfiles|].
  apply Hframe; vm_compute; discriminate.
Defined.


(** ** The environment check and the name of the top level *)

(** Where stripping the answer only removes the line terminator, the
    comparison of [check_in_repo] is with the directory git reported. *)
Lemma check_in_repo_clean_answer (host : Host) (w : World) proc files :
  spawn host toplevel_argv (cwd w) (fs w) = Some (proc, files) ->
  returncode proc = 0 ->
  PyStr.strip (stdout proc) = reported_toplevel (stdout proc) ->
  fst (check_in_repo host w) =
    Ret (String.eqb (realpath host (cwd w) (cwd w))
           (realpath host (cwd w) (reported_toplevel (stdout proc)))).
Proof.
  intros Hrun Hrc Hclean. rewrite check_in_repo_unfold. cbv zeta.
  rewrite Hrun, Hrc. change (0 =? 0) with true. cbn [fst]. by rewrite Hclean.
Qed.

Lemma check_in_repo_clean_answer_witness :
  fst (check_in_repo host_top_everywhere plain_root) = Ret true.
Proof.
  rewrite (check_in_repo_clean_answer host_top_everywhere plain_root
             {| returncode := 0; stdout := "/srv/repo" +:+ PyStr.nl |} ∅);
    reflexivity.
Defined.

(** C2.  In a repository whose top-level directory is [/repo ] (the name
    ends with a space), run from that very directory: the query exits with
    status 0 and reports the working directory, both have the same canonical
    path, and yet [check_in_repo] returns [False] and the script exits with
    status 1.  The answer is stripped of white space at both ends before it
    is compared, which removes the space of the name together with the line
    terminator. *)
Theorem check_in_repo_rejects_spaced_top_level :
  exists proc files,
    spawn host_top_everywhere toplevel_argv (cwd spaced_root) (fs spaced_root) =
      Some (proc, files) /\
    returncode proc = 0 /\
    reported_toplevel (stdout proc) = cwd spaced_root /\
    realpath host_top_everywhere (cwd spaced_root) (cwd spaced_root) =
      realpath host_top_everywhere (cwd spaced_root) (reported_toplevel (stdout proc)) /\
    PyStr.strip (stdout proc) = "/repo" /\
    fst (check_in_repo host_top_everywhere spaced_root) = Ret false /\
    fst (exit_status host_top_everywhere {| setup := true; dry_run := false |} spaced_root) = 1.
Proof.
  exists {| returncode := 0; stdout := "/repo " +:+ PyStr.nl |}, ∅.
  repeat split; reflexivity.
Qed.
